(** * Parametric Value-at-Risk notebook: model and specification

    Source: [portfolio_management/Portfolio_Management_W_Value_Risk.ipynb].

    The notebook is a straight-line script over pandas, numpy and scipy.  Each
    assignment of the script is a definition below that keeps the variable's
    name and takes the variables it reads as arguments; the library calls it
    makes ([DataFrame.pct_change], [DataFrame.mean], [DataFrame.cov],
    [Series.dot], [ndarray.dot], [np.sqrt], [norm.ppf]) are modelled by the
    algorithms of the libraries, which are not part of the repository: pandas
    1.x and 2.x ([pct_change] pads missing prices by default), numpy and
    scipy.  scipy's [ndtri], the quantile function of the standard normal
    distribution, is a parameter.

    Numbers are IEEE doubles in the script.  They are modelled by [float64]:
    a real number, one of the two infinities, or NaN.  The special values and
    the rules that produce them (0/0, inf - inf, sqrt of a negative, ...) are
    kept, since the script's behaviour on bad input is to return them;
    rounding, overflow and the sign of zero are not modelled, so every finite
    operation is the exact real one. *)

From Stdlib Require Import String.
From Stdlib Require Import Reals Lra Lia Psatz List Arith Bool ZArith.
Import ListNotations.
Local Open Scope R_scope.

(** ** Values *)

Inductive float64 : Type :=
| Fin (x : R)
| PInf
| NInf
| NaN.

(** Exceptions the calls of the script can raise: numpy and pandas refuse a
    product of operands whose shapes do not agree ([ValueError: shapes ... not
    aligned], [Exception: Dot product shape mismatch]). *)
Inductive exn : Type :=
| ShapeMismatch.

Inductive result (A : Type) : Type :=
| Ok (a : A)
| Raise (e : exn).
Arguments Ok {A} a.
Arguments Raise {A} e.

Definition bind {A B : Type} (c : result A) (k : A -> result B) : result B :=
  match c with
  | Ok a => k a
  | Raise e => Raise e
  end.

Notation "x <- c ;; k" := (bind c (fun x => k))
  (at level 61, c at next level, right associativity).

Fixpoint mapM {A B : Type} (f : A -> result B) (l : list A) : result (list B) :=
  match l with
  | [] => Ok []
  | a :: l' => b <- f a ;; bs <- mapM f l' ;; Ok (b :: bs)
  end.

(** ** Arithmetic of doubles *)

Module F.

Definition ltb (x y : R) : bool := if Rlt_dec x y then true else false.
Definition eqb (x y : R) : bool := if Req_dec_T x y then true else false.

(** An infinity of sign [pos] multiplied by the finite [x]. *)
Definition inf_times (pos : bool) (x : R) : float64 :=
  if ltb 0 x then (if pos then PInf else NInf)
  else if ltb x 0 then (if pos then NInf else PInf)
  else NaN.

Definition opp (a : float64) : float64 :=
  match a with
  | Fin x => Fin (- x)
  | PInf => NInf
  | NInf => PInf
  | NaN => NaN
  end.

Definition add (a b : float64) : float64 :=
  match a, b with
  | NaN, _ | _, NaN => NaN
  | Fin x, Fin y => Fin (x + y)
  | PInf, NInf | NInf, PInf => NaN
  | PInf, _ | _, PInf => PInf
  | NInf, _ | _, NInf => NInf
  end.

Definition sub (a b : float64) : float64 := add a (opp b).

Definition mul (a b : float64) : float64 :=
  match a, b with
  | NaN, _ | _, NaN => NaN
  | Fin x, Fin y => Fin (x * y)
  | PInf, Fin y | Fin y, PInf => inf_times true y
  | NInf, Fin y | Fin y, NInf => inf_times false y
  | PInf, PInf | NInf, NInf => PInf
  | PInf, NInf | NInf, PInf => NInf
  end.

Definition div (a b : float64) : float64 :=
  match a, b with
  | NaN, _ | _, NaN => NaN
  | Fin x, Fin y =>
      if eqb y 0 then inf_times true x else Fin (x / y)
  | Fin _, _ => Fin 0
  | PInf, Fin y => if ltb y 0 then NInf else PInf
  | NInf, Fin y => if ltb y 0 then PInf else NInf
  | _, _ => NaN
  end.

Definition sqrt (a : float64) : float64 :=
  match a with
  | Fin x => if ltb x 0 then NaN else Fin (R_sqrt.sqrt x)
  | PInf => PInf
  | NInf | NaN => NaN
  end.

(** Comparisons: every comparison with NaN is false. *)
Definition lt (a b : float64) : bool :=
  match a, b with
  | NaN, _ | _, NaN => false
  | Fin x, Fin y => ltb x y
  | NInf, NInf | PInf, _ | _, NInf => false
  | NInf, _ | _, PInf => true
  end.

Definition eq (a b : float64) : bool :=
  match a, b with
  | Fin x, Fin y => eqb x y
  | PInf, PInf | NInf, NInf => true
  | _, _ => false
  end.

Definition isnan (a : float64) : bool :=
  match a with NaN => true | _ => false end.

Definition isfinite (a : float64) : bool :=
  match a with Fin _ => true | _ => false end.

Definition of_Z (z : Z) : float64 := Fin (IZR z).
Definition of_nat (n : nat) : float64 := Fin (INR n).

Definition sum (l : list float64) : float64 := fold_left add l (Fin 0).

End F.

(** ** numpy *)

Module np.

(** A one-dimensional array is a list; [range(a, b)] is the integers
    [a, a+1, ..., b-1]. *)
Definition range (a b : Z) : list Z :=
  map (fun i => (a + Z.of_nat i)%Z) (seq 0 (Z.to_nat (b - a))).

(** [np.sqrt], on a scalar and elementwise on an array of integers (which
    numpy converts to doubles first). *)
Definition sqrt (a : float64) : float64 := F.sqrt a.
Definition sqrt_range (l : list Z) : list float64 :=
  map (fun z => sqrt (F.of_Z z)) l.

(** Sum of the products of two arrays of one length. *)
Definition inner (a b : list float64) : float64 :=
  F.sum (map (fun p => F.mul (fst p) (snd p)) (combine a b)).

(** [a.dot(b)] for one-dimensional [a] and [b]. *)
Definition dot (a b : list float64) : result float64 :=
  if Nat.eqb (length a) (length b) then Ok (inner a b)
  else Raise ShapeMismatch.

(** A two-dimensional array is the list of its columns; all columns of an
    array have one length, the number of rows. *)
Definition nrows (m : list (list float64)) : nat :=
  match m with
  | [] => 0%nat
  | c :: _ => length c
  end.

(** [a.dot(m)] for one-dimensional [a] and two-dimensional [m]: entry [j] is
    the inner product of [a] with column [j] of [m]. *)
Definition dot_matrix (a : list float64) (m : list (list float64))
  : result (list float64) :=
  if Nat.eqb (length a) (nrows m) then mapM (dot a) m
  else Raise ShapeMismatch.

(** [np.cov(m.T, ddof)] where the columns of [m] are the variables: the
    two-pass estimate.  The divisor [n - ddof] is replaced by 0.0 when it
    is not positive, and the products are scaled by its reciprocal. *)
Definition average (c : list float64) : float64 :=
  F.div (F.sum c) (F.of_nat (length c)).

Definition center (c : list float64) : list float64 :=
  let avg := average c in map (fun v => F.sub v avg) c.

Definition cov (m : list (list float64)) (ddof : Z) : list (list float64) :=
  let fact := (Z.of_nat (nrows m) - ddof)%Z in
  let fact := if (fact <=? 0)%Z then Fin 0 else F.of_Z fact in
  let X := map center m in
  map (fun cj => map (fun ci => F.mul (inner ci cj) (F.div (Fin 1) fact)) X) X.

End np.

(** ** pandas *)

(** A series of doubles. *)
Abbreviation Series := (list float64) (only parsing).

(** A frame of doubles: the list of its columns, all of one length. *)
Abbreviation DataFrame := (list (list float64)) (only parsing).

Module pd.

Definition notna (v : float64) : bool := negb (F.isnan v).

(** [fillna(method='pad')]: down every column, a missing value takes the
    last value seen above it; missing values at the top stay missing. *)
Fixpoint pad (val : float64) (c : Series) : Series :=
  match c with
  | [] => []
  | v :: c' => if F.isnan v then val :: pad val c' else v :: pad v c'
  end.

Definition fillna_pad (df : DataFrame) : DataFrame := map (pad NaN) df.

(** [shift(periods=1)]: every value moves one row down, the first row is
    missing and the last value is dropped. *)
Definition shift1 (c : Series) : Series :=
  match c with
  | [] => []
  | _ :: _ => NaN :: removelast c
  end.

Definition shift (df : DataFrame) : DataFrame := map shift1 df.

(** Arithmetic of two frames of one shape, and of a frame and a scalar,
    entry by entry. *)
Definition div (a b : DataFrame) : DataFrame :=
  map (fun cs => map (fun vs => F.div (fst vs) (snd vs))
                     (combine (fst cs) (snd cs)))
      (combine a b).

Definition sub_scalar (a : DataFrame) (k : float64) : DataFrame :=
  map (map (fun v => F.sub v k)) a.

(** [DataFrame.pct_change()], with its defaults [periods=1] and
    [fill_method='pad']:
    [data = self.fillna(method='pad'); rs = data / data.shift(1) - 1]. *)
Definition pct_change (df : DataFrame) : DataFrame :=
  let data := fillna_pad df in
  let shifted := shift data in
  sub_scalar (div data shifted) (Fin 1).

(** The same on one column. *)
Definition pct_change_col (c : Series) : Series :=
  let data := pad NaN c in
  map (fun p => F.sub (F.div (fst p) (snd p)) (Fin 1))
      (combine data (shift1 data)).

(** [DataFrame.mean()], with its default [skipna=True] ([nanops.nanmean]):
    missing values are replaced by 0 in the sum and left out of the count;
    a column with no value has mean NaN. *)
Definition nanmean (c : Series) : float64 :=
  let values := map (fun v => if F.isnan v then Fin 0 else v) c in
  let count := length (filter notna c) in
  let the_sum := F.sum values in
  if Nat.ltb 0 count then F.div the_sum (F.of_nat count) else NaN.

Definition mean (df : DataFrame) : Series := map nanmean df.

(** [algos.nancorr]: one pass of Welford's method over the rows in which
    both columns are finite. *)
Record welford : Type := {
  nobs : nat;
  meanx : float64;
  meany : float64;
  ssqdm_x : float64;
  ssqdm_y : float64;
  covxy : float64
}.

Definition welford_init : welford :=
  {| nobs := 0; meanx := Fin 0; meany := Fin 0;
     ssqdm_x := Fin 0; ssqdm_y := Fin 0; covxy := Fin 0 |}.

Definition welford_step (s : welford) (row : float64 * float64) : welford :=
  let (vx, vy) := row in
  if F.isfinite vx && F.isfinite vy then
    let n := S (nobs s) in
    let dx := F.sub vx (meanx s) in
    let dy := F.sub vy (meany s) in
    let mx := F.add (meanx s) (F.mul (F.div (Fin 1) (F.of_nat n)) dx) in
    let my := F.add (meany s) (F.mul (F.div (Fin 1) (F.of_nat n)) dy) in
    {| nobs := n; meanx := mx; meany := my;
       ssqdm_x := F.add (ssqdm_x s) (F.mul (F.sub vx mx) dx);
       ssqdm_y := F.add (ssqdm_y s) (F.mul (F.sub vy my) dy);
       covxy := F.add (covxy s) (F.mul (F.sub vx mx) dy) |}
  else s.

Definition nancorr_entry (cov : bool) (minpv : nat) (x y : Series) : float64 :=
  let s := fold_left welford_step (combine x y) welford_init in
  if Nat.ltb (nobs s) minpv then NaN
  else
    let divisor :=
      if cov then F.sub (F.of_nat (nobs s)) (Fin 1)
      else F.sqrt (F.mul (ssqdm_x s) (ssqdm_y s)) in
    if negb (F.eq divisor (Fin 0)) then F.div (covxy s) divisor else NaN.

(** The entry of row [xi] and column [yi] is computed for [yi <= xi] and
    mirrored. *)
Definition nancorr (mat : DataFrame) (cov : bool) (minpv : nat) : DataFrame :=
  let K := length mat in
  map (fun j =>
         map (fun i =>
                if Nat.leb j i
                then nancorr_entry cov minpv (nth i mat []) (nth j mat [])
                else nancorr_entry cov minpv (nth j mat []) (nth i mat []))
             (seq 0 K))
      (seq 0 K).

(** [DataFrame.cov()], with its defaults [min_periods=None] and [ddof=1]:
    numpy's estimate when no value is missing, else [nancorr] with
    [minp = 1]. *)
Definition cov (df : DataFrame) : DataFrame :=
  if forallb (forallb notna) df then np.cov df 1
  else nancorr df true 1.

(** [Series.dot(other)] for an array [other]. *)
Definition dot (s : Series) (other : list float64) : result float64 :=
  np.dot s other.

End pd.

(** ** scipy.stats *)

Module norm.

(** [norm.ppf(q, loc, scale)], as [rv_continuous.ppf] computes it for the
    normal distribution, whose support is the whole line: NaN unless
    [scale > 0] and [loc] is a number; the end of the support at [q = 0]
    and [q = 1]; [ndtri(q) * scale + loc] for [0 < q < 1], and NaN for any
    other [q].  [ndtri] is scipy's quantile function of the standard normal
    distribution; it is called only in the third case. *)
Definition ppf (ndtri : float64 -> float64) (q loc scale : float64) : float64 :=
  let cond0 := F.lt (Fin 0) scale && F.eq loc loc in
  let cond1 := F.lt (Fin 0) q && F.lt q (Fin 1) in
  let cond2 := cond0 && F.eq q (Fin 0) in
  let cond3 := cond0 && F.eq q (Fin 1) in
  let cond := cond0 && cond1 in
  let lower_bound := F.add (F.mul NInf scale) loc in
  let upper_bound := F.add (F.mul PInf scale) loc in
  if cond then F.add (F.mul (ndtri q) scale) loc
  else if cond3 then upper_bound
  else if cond2 then lower_bound
  else NaN.

End norm.

(** ** The notebook *)

Module Notebook.

(** *** Parameters (cell 2) *)

Definition tickers : list string := ["AAPL"; "META"; "C"; "DIS"]%string.
Definition weights : list float64 :=
  [Fin (25 / 100); Fin (3 / 10); Fin (15 / 100); Fin (3 / 10)].
Definition portfolio_value : float64 := Fin 1000.
Definition confidence : float64 := Fin (5 / 100).

(** *** Return statistics and portfolio aggregation (cell 4) *)

(** [returns = data.pct_change()] *)
Definition returns (data : DataFrame) : DataFrame := pd.pct_change data.

(** [mean_returns = returns.mean()] *)
Definition mean_returns (returns : DataFrame) : Series := pd.mean returns.

(** [port_mean = mean_returns.dot(weights)] *)
Definition port_mean (mean_returns : Series) (weights : list float64)
  : result float64 :=
  pd.dot mean_returns weights.

(** [investment_mean = (1 + port_mean) * portfolio_value] *)
Definition investment_mean (port_mean portfolio_value : float64) : float64 :=
  F.mul (F.add (Fin 1) port_mean) portfolio_value.

(** [cov_matrix = returns.cov()] *)
Definition cov_matrix (returns : DataFrame) : DataFrame := pd.cov returns.

(** [weights.T.dot(cov_matrix).dot(weights)]: the transpose of a
    one-dimensional array is the array. *)
Definition port_variance (weights : list float64) (cov_matrix : DataFrame)
  : result float64 :=
  wc <- np.dot_matrix weights cov_matrix ;;
  np.dot wc weights.

(** [port_stdev = np.sqrt(weights.T.dot(cov_matrix).dot(weights))] *)
Definition port_stdev (weights : list float64) (cov_matrix : DataFrame)
  : result float64 :=
  q <- port_variance weights cov_matrix ;;
  Ok (np.sqrt q).

(** [investment_stdev = portfolio_value * port_stdev] *)
Definition investment_stdev (portfolio_value port_stdev : float64) : float64 :=
  F.mul portfolio_value port_stdev.

(** *** Value at risk (cell 6) *)

(** [percent_point = norm.ppf(confidence, investment_mean, investment_stdev)] *)
Definition percent_point (ndtri : float64 -> float64)
  (confidence investment_mean investment_stdev : float64) : float64 :=
  norm.ppf ndtri confidence investment_mean investment_stdev.

(** [value_at_risk = portfolio_value - percent_point] *)
Definition value_at_risk (portfolio_value percent_point : float64) : float64 :=
  F.sub portfolio_value percent_point.

(** *** Scaling over the horizon (cell 9) *)

(** [value_at_risks = value_at_risk * np.sqrt(range(1, 31))] *)
Definition value_at_risks (value_at_risk : float64) : list float64 :=
  map (fun s => F.mul value_at_risk s) (np.sqrt_range (np.range 1 31)).

(** *** The script, top to bottom *)

Record workspace : Type := {
  ws_returns : DataFrame;
  ws_mean_returns : Series;
  ws_port_mean : float64;
  ws_investment_mean : float64;
  ws_cov_matrix : DataFrame;
  ws_port_stdev : float64;
  ws_investment_stdev : float64;
  ws_percent_point : float64;
  ws_value_at_risk : float64;
  ws_value_at_risks : list float64
}.

(** The cells in order, for given parameters and the frame [data] that the
    download returned.  A raised exception stops the run. *)
Definition run (ndtri : float64 -> float64)
  (weights : list float64) (portfolio_value confidence : float64)
  (data : DataFrame) : result workspace :=
  let returns := returns data in
  let mean_returns := mean_returns returns in
  port_mean <- port_mean mean_returns weights ;;
  let investment_mean := investment_mean port_mean portfolio_value in
  let cov_matrix := cov_matrix returns in
  port_stdev <- port_stdev weights cov_matrix ;;
  let investment_stdev := investment_stdev portfolio_value port_stdev in
  let percent_point :=
    percent_point ndtri confidence investment_mean investment_stdev in
  let value_at_risk := value_at_risk portfolio_value percent_point in
  let value_at_risks := value_at_risks value_at_risk in
  Ok {| ws_returns := returns;
        ws_mean_returns := mean_returns;
        ws_port_mean := port_mean;
        ws_investment_mean := investment_mean;
        ws_cov_matrix := cov_matrix;
        ws_port_stdev := port_stdev;
        ws_investment_stdev := investment_stdev;
        ws_percent_point := percent_point;
        ws_value_at_risk := value_at_risk;
        ws_value_at_risks := value_at_risks |}.

(** The notebook as it is written, on the frame that the download returned. *)
Definition main (ndtri : float64 -> float64) (data : DataFrame)
  : result workspace :=
  run ndtri weights portfolio_value confidence data.

End Notebook.

(** ** The mathematics the specification speaks of

    Textbook definitions over the reals, written from the specification's
    words, to compare the script's results with.  A matrix is the list of its
    columns, as above. *)

Module Math.

Fixpoint big_sum (n : nat) (f : nat -> R) : R :=
  match n with
  | O => 0
  | S n' => big_sum n' f + f n'
  end.

Definition dot (a b : list R) : R :=
  big_sum (length a) (fun i => nth i a 0 * nth i b 0).

(** Entry of row [i] and column [j]. *)
Definition entry (m : list (list R)) (i j : nat) : R := nth i (nth j m []) 0.

Definition square (N : nat) (m : list (list R)) : Prop :=
  length m = N /\ Forall (fun c => length c = N) m.

(** The quadratic form [w' m w], the sum over all [i], [j] of
    [w_i * m_ij * w_j]. *)
Definition quadratic_form (w : list R) (m : list (list R)) : R :=
  big_sum (length w) (fun i =>
    big_sum (length w) (fun j => nth i w 0 * entry m i j * nth j w 0)).


Definition positive_semidefinite (N : nat) (m : list (list R)) : Prop :=
  forall x : list R, length x = N -> 0 <= quadratic_form x m.

(** Simple returns of a price column: [p_t / p_(t-1) - 1] for every row [t]
    but the first. *)
Definition simple_returns (p : list R) : list R :=
  map (fun t => nth t p 0 / nth (t - 1) p 0 - 1) (seq 1 (length p - 1)).

Definition arithmetic_mean (x : list R) : R :=
  big_sum (length x) (fun t => nth t x 0) / INR (length x).

(** Sum of the products of the deviations from the means; the sample
    covariance divides it by the number of observations less one. *)
Definition co_moment (x y : list R) : R :=
  big_sum (length x) (fun t =>
    (nth t x 0 - arithmetic_mean x) * (nth t y 0 - arithmetic_mean y)).

Definition sample_covariance (x y : list R) : R :=
  co_moment x y / (INR (length x) - 1).

(** The distribution function of [mu + sigma * Z], where [Z] has the
    distribution function [Phi]: [P(X <= x) = Phi ((x - mu) / sigma)].  For
    [Phi] that of the standard normal distribution this is the normal
    distribution with mean [mu] and standard deviation [sigma]. *)
Definition cdf (Phi : R -> R) (mu sigma x : R) : R :=
  Phi ((x - mu) / sigma).

End Math.

(** The logistic distribution, to run the script where a concrete quantile
    function is needed: its distribution function is strictly increasing and
    [logit] inverts it on (0, 1), which is all that is assumed of the standard
    normal distribution and [ndtri] below. *)
Definition logistic_cdf (x : R) : R := / (1 + exp (- x)).

Definition logit (q : float64) : float64 :=
  match q with
  | Fin a => Fin (ln (a / (1 - a)))
  | _ => NaN
  end.

(** ** Auxiliary definitions

    Helpers of the statements and proofs below: real-valued counterparts of
    the array operations, example inputs, and the single-pass forms of the
    pandas calls. *)

(** The sum and the inner product as the arrays compute them, on reals. *)
Definition rsum (l : list R) : R := fold_left Rplus l 0.

Definition rdot (a b : list R) : R :=
  rsum (map (fun p => fst p * snd p) (combine a b)).

(** A vector and a matrix of reals as arrays of doubles. *)
Definition liftv (v : list R) : list float64 := map Fin v.
Definition liftm (m : list (list R)) : list (list float64) := map liftv m.

(** A scenario with two assets. *)
Definition example_weights : list R := [6 / 10; 4 / 10].
Definition example_means : list R := [1 / 1000; 5 / 10000].
Definition example_cov : list (list R) :=
  [[4 / 10000; 1 / 10000]; [1 / 10000; 9 / 10000]].


(** [pct_change] of one column in a single pass: every row divides its
    filled price by the filled price of the row above. *)
Fixpoint pct_from (prev : float64) (c : Series) : Series :=
  match c with
  | [] => []
  | v :: c' =>
      let d := if F.isnan v then prev else v in
      F.sub (F.div d prev) (Fin 1) :: pct_from d c'
  end.

(** Every value with the value of the row above. *)
Fixpoint with_prev (prev : float64) (c : Series) : list (float64 * float64) :=
  match c with
  | [] => []
  | v :: c' => (v, prev) :: with_prev v c'
  end.

(** The carry after a prefix: the last value of the prefix that is not
    missing, or the carry before it. *)
Fixpoint carry (prev : float64) (c : Series) : float64 :=
  match c with
  | [] => prev
  | v :: c' => carry (if F.isnan v then prev else v) c'
  end.

(** The returns of observed prices, after the price [prev]. *)
Fixpoint rets (prev : R) (p : list R) : list R :=
  match p with
  | [] => []
  | x :: p' => (x / prev - 1) :: rets x p'
  end.

(** The numbers of a column, in order, and the rows of two columns in which
    both are numbers. *)
Definition observed (c : Series) : list R :=
  flat_map (fun v => match v with Fin a => [a] | _ => [] end) c.

Definition select_pair (p : float64 * float64) : list (R * R) :=
  match p with
  | (Fin a, Fin b) => [(a, b)]
  | _ => []
  end.

Definition observed_pairs (x y : Series) : list (R * R) :=
  flat_map select_pair (combine x y).

(** A value that is a number or missing: not an infinity. *)
Definition number_or_missing (v : float64) : Prop :=
  v = NaN \/ exists a : R, v = Fin a.

(** A row of two numbers as a row of two doubles, and a row with its two
    values exchanged. *)
Definition lift_pair (p : R * R) : float64 * float64 :=
  (Fin (fst p), Fin (snd p)).

(** What the state holds after the rows [l]: the count, the two means, and
    the three sums of products of deviations, here by the sums of the rows. *)
Definition welford_inv (l : list (R * R)) (s : pd.welford) : Prop :=
  let n := INR (length l) in
  exists mx my sx sy c : R,
    s = {| pd.nobs := length l;
           pd.meanx := Fin mx; pd.meany := Fin my;
           pd.ssqdm_x := Fin sx; pd.ssqdm_y := Fin sy;
           pd.covxy := Fin c |} /\
    n * mx = rsum (map fst l) /\
    n * my = rsum (map snd l) /\
    sx = rsum (map (fun p => fst p * fst p) l) - n * mx * mx /\
    sy = rsum (map (fun p => snd p * snd p) l) - n * my * my /\
    c = rsum (map (fun p => fst p * snd p) l) - n * mx * my.

(** Covariance of two columns over the rows in which both are numbers. *)
Definition cov_of_pairs (l : list (R * R)) : float64 :=
  match l with
  | [] => NaN
  | _ :: _ => F.div (Fin (Math.co_moment (map fst l) (map snd l)))
                    (Fin (INR (length l) - 1))
  end.

Definition pairwise_cov (x y : Series) : float64 :=
  cov_of_pairs (observed_pairs x y).

Definition swap (p : R * R) : R * R := (snd p, fst p).

(** A price table of [T] rows in which every price is observed and
    positive; the table is the list of its columns, one per ticker. *)
Definition positive_prices (T : nat) (prices : list (list R)) : Prop :=
  Forall (fun p => length p = T /\ Forall (fun x => 0 < x) p) prices.

(** The matrix of the sample covariances of return columns. *)
Definition covariance_matrix (rets : list (list R)) : list (list R) :=
  map (fun rj => map (fun ri => Math.sample_covariance ri rj) rets) rets.

(** Two tickers over three days. *)
Definition example_prices : list (list R) := [[100; 110; 121]; [50; 50; 55]].



(** One row of prices for two tickers. *)
Definition one_row_prices : DataFrame := [[Fin 100]; [Fin 50]].

(** An entry of a price table: a positive price, or missing. *)
Definition price_or_missing (v : float64) : Prop :=
  v = NaN \/ exists x : R, 0 < x /\ v = Fin x.

(** Two tickers over five days; the first has no price on the third and
    fourth day. *)
Definition gap_prices : DataFrame :=
  [[Fin 100; Fin 110; NaN; NaN; Fin 121];
   [Fin 50; Fin 50; Fin 55; Fin 44; Fin 44]].

(** * Properties *)

(** ** Doubles that are numbers *)

Lemma ltb_lt (x y : R) : x < y -> F.ltb x y = true.
Proof. intros H. unfold F.ltb. destruct (Rlt_dec x y); [reflexivity | contradiction]. Qed.

Lemma ltb_ge (x y : R) : y <= x -> F.ltb x y = false.
Proof. intros H. unfold F.ltb. destruct (Rlt_dec x y); [lra | reflexivity]. Qed.

Lemma eqb_refl (x : R) : F.eqb x x = true.
Proof. unfold F.eqb. destruct (Req_dec_T x x); [reflexivity | contradiction]. Qed.

Lemma eqb_neq (x y : R) : x <> y -> F.eqb x y = false.
Proof. intros H. unfold F.eqb. destruct (Req_dec_T x y); [contradiction | reflexivity]. Qed.

Lemma div_Fin (x y : R) : y <> 0 -> F.div (Fin x) (Fin y) = Fin (x / y).
Proof. intros H. simpl. rewrite (eqb_neq _ _ H). reflexivity. Qed.

Lemma sqrt_Fin (x : R) : 0 <= x -> F.sqrt (Fin x) = Fin (sqrt x).
Proof. intros H. simpl. rewrite (ltb_ge _ _ H). reflexivity. Qed.

Lemma sqrt_neg (x : R) : x < 0 -> F.sqrt (Fin x) = NaN.
Proof. intros H. simpl. rewrite (ltb_lt _ _ H). reflexivity. Qed.

(** ** Horizon scaling *)

Lemma nth_map_in {A B : Type} (f : A -> B) (l : list A) (i : nat) (d : A) (d' : B) :
  (i < length l)%nat -> nth i (map f l) d' = f (nth i l d).
Proof.
  intros H. rewrite (nth_indep _ d' (f d)) by (rewrite length_map; exact H).
  apply map_nth.
Qed.

Lemma range_length (a b : Z) : length (np.range a b) = Z.to_nat (b - a).
Proof. unfold np.range. rewrite length_map, length_seq. reflexivity. Qed.

Lemma range_nth (a b : Z) (i : nat) :
  (i < Z.to_nat (b - a))%nat -> nth i (np.range a b) 0%Z = (a + Z.of_nat i)%Z.
Proof.
  intros H. unfold np.range.
  rewrite (nth_map_in _ _ _ 0%nat) by (rewrite length_seq; exact H).
  rewrite seq_nth by exact H. reflexivity.
Qed.

Lemma value_at_risks_length (v : float64) :
  length (Notebook.value_at_risks v) = 30%nat.
Proof. reflexivity. Qed.

Lemma value_at_risks_nth (v : float64) (d : nat) :
  (1 <= d <= 30)%nat ->
  nth (d - 1) (Notebook.value_at_risks v) NaN = F.mul v (Fin (sqrt (INR d))).
Proof.
  intros Hd. unfold Notebook.value_at_risks, np.sqrt_range.
  rewrite map_map.
  rewrite (nth_map_in _ _ _ 0%Z) by (rewrite range_length; simpl; lia).
  rewrite range_nth by (simpl; lia).
  unfold np.sqrt, F.of_Z.
  replace (1 + Z.of_nat (d - 1))%Z with (Z.of_nat d) by lia.
  rewrite <- INR_IZR_INZ, sqrt_Fin by apply pos_INR.
  reflexivity.
Qed.

(** C2. Horizon Scaler: for every one-day VaR [v] the scaled sequence has
    exactly 30 entries, one per day [d] of 1..30 in order, and the entry of
    day [d] (at position [d - 1]) is [v * sqrt d]; for a finite [v] this is
    the real number [v * sqrt d]. *)
Theorem horizon_scaling (v : float64) (d : nat) :
  (1 <= d <= 30)%nat ->
  length (Notebook.value_at_risks v) = 30%nat /\
  nth (d - 1) (Notebook.value_at_risks v) NaN = F.mul v (Fin (sqrt (INR d))) /\
  (forall x : R, v = Fin x ->
     nth (d - 1) (Notebook.value_at_risks v) NaN = Fin (x * sqrt (INR d))).
Proof.
  intros Hd. split; [apply value_at_risks_length | split].
  - apply value_at_risks_nth, Hd.
  - intros x ->. rewrite value_at_risks_nth by exact Hd. reflexivity.
Qed.

Lemma horizon_scaling_witness :
  length (Notebook.value_at_risks (Fin 28)) = 30%nat /\
  nth (30 - 1) (Notebook.value_at_risks (Fin 28)) NaN
    = F.mul (Fin 28) (Fin (sqrt (INR 30))) /\
  (forall x : R, Fin 28 = Fin x ->
     nth (30 - 1) (Notebook.value_at_risks (Fin 28)) NaN = Fin (x * sqrt (INR 30))).
Proof. apply (horizon_scaling (Fin 28) 30). lia. Defined.

(** ** Sums and products of finite arrays *)

Lemma fold_add_Fin (l : list R) (a : R) :
  fold_left F.add (map Fin l) (Fin a) = Fin (fold_left Rplus l a).
Proof.
  revert a. induction l as [| x l IH]; intros a; simpl; [reflexivity | apply IH].
Qed.

Lemma sum_Fin (l : list R) : F.sum (map Fin l) = Fin (rsum l).
Proof. apply fold_add_Fin. Qed.

Lemma inner_Fin (a b : list R) :
  np.inner (map Fin a) (map Fin b) = Fin (rdot a b).
Proof.
  unfold np.inner, rdot. rewrite <- sum_Fin. f_equal.
  revert b. induction a as [| x a IH]; intros [| y b]; simpl; try reflexivity.
  f_equal. apply IH.
Qed.

Lemma dot_Fin (a b : list R) :
  length a = length b -> np.dot (map Fin a) (map Fin b) = Ok (Fin (rdot a b)).
Proof.
  intros H. unfold np.dot. rewrite !length_map, H, Nat.eqb_refl, inner_Fin.
  reflexivity.
Qed.

Lemma dot_mismatch (a b : list float64) :
  length a <> length b -> np.dot a b = Raise ShapeMismatch.
Proof.
  intros H. unfold np.dot. apply Nat.eqb_neq in H. rewrite H. reflexivity.
Qed.

Lemma fold_plus_acc (l : list R) (a : R) :
  fold_left Rplus l a = a + fold_left Rplus l 0.
Proof.
  revert a. induction l as [| x l IH]; intros a; simpl.
  - ring.
  - rewrite (IH (a + x)), (IH (0 + x)). ring.
Qed.

Lemma rsum_cons (x : R) (l : list R) : rsum (x :: l) = x + rsum l.
Proof. unfold rsum. simpl. rewrite fold_plus_acc. ring. Qed.

Lemma rsum_app (l1 l2 : list R) : rsum (l1 ++ l2) = rsum l1 + rsum l2.
Proof.
  unfold rsum. rewrite fold_left_app, fold_plus_acc. reflexivity.
Qed.

Lemma big_sum_ext (n : nat) (f g : nat -> R) :
  (forall i, (i < n)%nat -> f i = g i) -> Math.big_sum n f = Math.big_sum n g.
Proof.
  induction n as [| n IH]; intros H; simpl; [reflexivity |].
  rewrite IH, H by (intros; try apply H; lia). reflexivity.
Qed.

Lemma big_sum_shift (n : nat) (f : nat -> R) :
  Math.big_sum (S n) f = f 0%nat + Math.big_sum n (fun i => f (S i)).
Proof.
  induction n as [| n IH].
  - simpl. ring.
  - change (Math.big_sum (S (S n)) f) with (Math.big_sum (S n) f + f (S n)).
    rewrite IH. simpl. ring.
Qed.

Lemma big_sum_plus (n : nat) (f g : nat -> R) :
  Math.big_sum n (fun i => f i + g i) = Math.big_sum n f + Math.big_sum n g.
Proof. induction n as [| n IH]; simpl; [ring | rewrite IH; ring]. Qed.

Lemma big_sum_scal_r (n : nat) (f : nat -> R) (c : R) :
  Math.big_sum n (fun i => f i * c) = Math.big_sum n f * c.
Proof. induction n as [| n IH]; simpl; [ring | rewrite IH; ring]. Qed.

Lemma big_sum_scal_l (n : nat) (f : nat -> R) (c : R) :
  Math.big_sum n (fun i => c * f i) = c * Math.big_sum n f.
Proof. induction n as [| n IH]; simpl; [ring | rewrite IH; ring]. Qed.

Lemma big_sum_const (n : nat) (c : R) :
  Math.big_sum n (fun _ => c) = INR n * c.
Proof.
  induction n as [| n IH]; [simpl; ring |].
  rewrite S_INR. simpl Math.big_sum. rewrite IH. ring.
Qed.

Lemma big_sum_exchange (n m : nat) (f : nat -> nat -> R) :
  Math.big_sum n (fun i => Math.big_sum m (fun j => f i j))
  = Math.big_sum m (fun j => Math.big_sum n (fun i => f i j)).
Proof.
  induction n as [| n IH]; simpl.
  - induction m as [| m IHm]; simpl; [reflexivity | rewrite <- IHm; ring].
  - rewrite IH, <- big_sum_plus. reflexivity.
Qed.

Lemma big_sum_nonneg (n : nat) (f : nat -> R) :
  (forall i, (i < n)%nat -> 0 <= f i) -> 0 <= Math.big_sum n f.
Proof.
  induction n as [| n IH]; intros H; simpl; [lra |].
  assert (0 <= Math.big_sum n f) by (apply IH; intros; apply H; lia).
  assert (0 <= f n) by (apply H; lia). lra.
Qed.

Lemma rsum_big (l : list R) :
  rsum l = Math.big_sum (length l) (fun i => nth i l 0).
Proof.
  induction l as [| x l IH].
  - reflexivity.
  - rewrite rsum_cons. simpl length. rewrite big_sum_shift. simpl. rewrite IH.
    reflexivity.
Qed.

Lemma rdot_big (a b : list R) :
  length a = length b -> rdot a b = Math.dot a b.
Proof.
  revert b. induction a as [| x a IH]; intros [| y b] H; try discriminate H.
  - reflexivity.
  - unfold rdot, Math.dot in *. simpl combine. simpl map. rewrite rsum_cons.
    simpl length. rewrite big_sum_shift. simpl. rewrite IH by (simpl in H; lia).
    reflexivity.
Qed.

(** ** Portfolio aggregation *)

Lemma mapM_dot_Fin (w : list R) (m : list (list R)) :
  Forall (fun c => length c = length w) m ->
  mapM (np.dot (liftv w)) (liftm m) = Ok (liftv (map (rdot w) m)).
Proof.
  unfold liftm, liftv.
  induction 1 as [| c m Hc _ IH]; simpl; [reflexivity |].
  rewrite dot_Fin by (symmetry; exact Hc). simpl.
  rewrite IH. reflexivity.
Qed.

Lemma nrows_liftm (N : nat) (m : list (list R)) :
  Math.square N m -> np.nrows (liftm m) = N.
Proof.
  intros [Hl Hc]. destruct m as [| c m]; simpl; [exact Hl |].
  unfold liftv. rewrite length_map. inversion Hc; assumption.
Qed.

Lemma weighted_columns (N : nat) (w : list R) (m : list (list R)) :
  length w = N -> Math.square N m ->
  rdot (map (rdot w) m) w = Math.quadratic_form w m.
Proof.
  intros Hw [Hl Hc].
  rewrite rdot_big by (rewrite length_map; lia).
  unfold Math.dot, Math.quadratic_form. rewrite length_map, Hl, Hw.
  rewrite big_sum_exchange. apply big_sum_ext. intros j Hj.
  rewrite (nth_map_in _ _ _ []) by lia.
  assert (Hcj : length (nth j m []) = N).
  { rewrite Forall_forall in Hc. apply Hc, nth_In. lia. }
  rewrite rdot_big by lia. unfold Math.dot. rewrite Hw.
  rewrite <- big_sum_scal_r. apply big_sum_ext. intros i _.
  unfold Math.entry. reflexivity.
Qed.

Lemma port_variance_Fin (N : nat) (w : list R) (m : list (list R)) :
  length w = N -> Math.square N m ->
  Notebook.port_variance (liftv w) (liftm m) = Ok (Fin (Math.quadratic_form w m)).
Proof.
  intros Hw Hm. unfold Notebook.port_variance, np.dot_matrix.
  rewrite (nrows_liftm N) by exact Hm.
  unfold liftv at 1. rewrite length_map, Hw, Nat.eqb_refl.
  rewrite mapM_dot_Fin.
  2:{ destruct Hm as [_ Hc]. rewrite Hw. exact Hc. }
  simpl. unfold liftv. rewrite dot_Fin.
  2:{ rewrite length_map. destruct Hm; lia. }
  rewrite (weighted_columns N) by assumption. reflexivity.
Qed.

Lemma port_stdev_Fin (N : nat) (w : list R) (m : list (list R)) :
  length w = N -> Math.square N m ->
  Notebook.port_stdev (liftv w) (liftm m)
  = Ok (np.sqrt (Fin (Math.quadratic_form w m))).
Proof.
  intros Hw Hm. unfold Notebook.port_stdev.
  rewrite (port_variance_Fin N) by assumption. reflexivity.
Qed.

Lemma port_stdev_nonneg (N : nat) (w : list R) (m : list (list R)) :
  length w = N -> Math.square N m -> 0 <= Math.quadratic_form w m ->
  Notebook.port_stdev (liftv w) (liftm m)
  = Ok (Fin (sqrt (Math.quadratic_form w m))).
Proof.
  intros Hw Hm Hq. rewrite (port_stdev_Fin N) by assumption.
  unfold np.sqrt. rewrite sqrt_Fin by exact Hq. reflexivity.
Qed.

(** C3. Portfolio Aggregator: for a mean return vector [m], covariance
    matrix [c], weight vector [w] of one dimension [N] and a positive
    notional [V], no call raises, and the script returns
    portfolio mean return [dot(w, m)],
    expected investment value [(1 + dot(w, m)) * V],
    portfolio standard deviation [np.sqrt] of the quadratic form [w' c w]
    (the real square root when the form is not negative), and
    investment standard deviation [V] times that. *)
Theorem portfolio_aggregator (N : nat) (m w : list R) (c : list (list R)) (V : R) :
  length m = N -> length w = N -> Math.square N c -> 0 < V ->
  let q := Math.quadratic_form w c in
  Notebook.port_mean (liftv m) (liftv w) = Ok (Fin (Math.dot w m)) /\
  Notebook.investment_mean (Fin (Math.dot w m)) (Fin V)
    = Fin ((1 + Math.dot w m) * V) /\
  Notebook.port_stdev (liftv w) (liftm c) = Ok (np.sqrt (Fin q)) /\
  Notebook.investment_stdev (Fin V) (np.sqrt (Fin q))
    = F.mul (Fin V) (np.sqrt (Fin q)) /\
  (0 <= q ->
   Notebook.port_stdev (liftv w) (liftm c) = Ok (Fin (sqrt q)) /\
   Notebook.investment_stdev (Fin V) (Fin (sqrt q)) = Fin (V * sqrt q)).
Proof.
  intros Hm Hw Hc HV q.
  split; [| split; [| split; [| split; [| intros Hq; split]]]].
  - unfold Notebook.port_mean, pd.dot, liftv. rewrite dot_Fin by lia.
    rewrite rdot_big by lia. do 2 f_equal.
    unfold Math.dot. rewrite Hm, Hw. apply big_sum_ext. intros; ring.
  - reflexivity.
  - apply (port_stdev_Fin N); assumption.
  - reflexivity.
  - apply (port_stdev_nonneg N); assumption.
  - reflexivity.
Qed.

Lemma example_cov_square : Math.square 2 example_cov.
Proof. split; [reflexivity | repeat constructor]. Qed.

Lemma portfolio_aggregator_witness :
  let q := Math.quadratic_form example_weights example_cov in
  Notebook.port_mean (liftv example_means) (liftv example_weights)
    = Ok (Fin (Math.dot example_weights example_means)) /\
  Notebook.investment_mean (Fin (Math.dot example_weights example_means)) (Fin 1000)
    = Fin ((1 + Math.dot example_weights example_means) * 1000) /\
  Notebook.port_stdev (liftv example_weights) (liftm example_cov)
    = Ok (np.sqrt (Fin q)) /\
  Notebook.investment_stdev (Fin 1000) (np.sqrt (Fin q))
    = F.mul (Fin 1000) (np.sqrt (Fin q)) /\
  (0 <= q ->
   Notebook.port_stdev (liftv example_weights) (liftm example_cov)
     = Ok (Fin (sqrt q)) /\
   Notebook.investment_stdev (Fin 1000) (Fin (sqrt q)) = Fin (1000 * sqrt q)).
Proof.
  apply (portfolio_aggregator 2 example_means example_weights example_cov 1000);
    [reflexivity | reflexivity | exact example_cov_square | lra].
Defined.

(** The figures of this scenario: mean return 0.0008, expected value 1000.8,
    variance 0.000336. *)
Lemma example_figures :
  Math.dot example_weights example_means = 8 / 10000 /\
  (1 + Math.dot example_weights example_means) * 1000 = 10008 / 10 /\
  Math.quadratic_form example_weights example_cov = 336 / 1000000.
Proof.
  unfold Math.dot, Math.quadratic_form, Math.entry, example_weights,
    example_means, example_cov. simpl. repeat split; lra.
Qed.

(** ** Sign of the portfolio variance *)





(** ** A single asset *)

(** C9. With one asset, weight vector [[1.0]] and covariance matrix [[v]],
    [v >= 0], the portfolio standard deviation is [sqrt v], the standard
    deviation of that asset's returns. *)
Theorem single_asset_stdev (v : R) :
  0 <= v -> Notebook.port_stdev [Fin 1] [[Fin v]] = Ok (Fin (sqrt v)).
Proof.
  intros Hv.
  change [Fin 1] with (liftv [1]). change [[Fin v]] with (liftm [[v]]).
  assert (Hq : Math.quadratic_form [1] [[v]] = v)
    by (unfold Math.quadratic_form, Math.entry; simpl; ring).
  rewrite (port_stdev_nonneg 1), Hq.
  - reflexivity.
  - reflexivity.
  - split; [reflexivity | repeat constructor].
  - rewrite Hq. exact Hv.
Qed.

Lemma single_asset_stdev_witness :
  Notebook.port_stdev [Fin 1] [[Fin (4 / 10000)]] = Ok (Fin (sqrt (4 / 10000))).
Proof. apply (single_asset_stdev (4 / 10000)). lra. Defined.

(** ** The quantile call *)

Lemma ppf_interior (ndtri : float64 -> float64) (a mu sigma : R) :
  0 < sigma -> 0 < a < 1 ->
  norm.ppf ndtri (Fin a) (Fin mu) (Fin sigma)
  = F.add (F.mul (ndtri (Fin a)) (Fin sigma)) (Fin mu).
Proof.
  intros Hs [Ha0 Ha1]. unfold norm.ppf. simpl.
  rewrite (ltb_lt 0 sigma), eqb_refl, (ltb_lt 0 a), (ltb_lt a 1) by assumption.
  reflexivity.
Qed.

Lemma ppf_outside (ndtri : float64 -> float64) (a : R) (loc scale : float64) :
  a < 0 \/ 1 < a -> norm.ppf ndtri (Fin a) loc scale = NaN.
Proof.
  intros Ha. unfold norm.ppf.
  assert (H1 : F.lt (Fin 0) (Fin a) && F.lt (Fin a) (Fin 1) = false).
  { simpl. destruct Ha; [rewrite (ltb_ge 0 a) by lra | rewrite (ltb_ge a 1) by lra];
      auto using andb_false_r. }
  assert (H2 : F.eq (Fin a) (Fin 0) = false) by (apply eqb_neq; lra).
  assert (H3 : F.eq (Fin a) (Fin 1) = false) by (apply eqb_neq; lra).
  rewrite H1, H2, H3, !andb_false_r. reflexivity.
Qed.

Lemma ppf_not_a_number (ndtri : float64 -> float64) (q loc scale : float64) :
  F.isfinite q = false -> norm.ppf ndtri q loc scale = NaN.
Proof.
  intros Hq. unfold norm.ppf.
  destruct q; try discriminate Hq; simpl; rewrite ?andb_false_r; reflexivity.
Qed.

Lemma ppf_bad_scale (ndtri : float64 -> float64) (q loc scale : float64) :
  F.lt (Fin 0) scale = false -> norm.ppf ndtri q loc scale = NaN.
Proof. intros Hs. unfold norm.ppf. rewrite Hs. reflexivity. Qed.

Lemma ppf_zero (ndtri : float64 -> float64) (mu sigma : R) :
  0 < sigma -> norm.ppf ndtri (Fin 0) (Fin mu) (Fin sigma) = NInf.
Proof.
  intros Hs. unfold norm.ppf. simpl.
  rewrite (ltb_lt 0 sigma), !eqb_refl, (ltb_ge 0 0), (eqb_neq 0 1) by lra.
  simpl. unfold F.inf_times. rewrite (ltb_lt 0 sigma) by lra. reflexivity.
Qed.

Lemma ppf_one (ndtri : float64 -> float64) (mu sigma : R) :
  0 < sigma -> norm.ppf ndtri (Fin 1) (Fin mu) (Fin sigma) = PInf.
Proof.
  intros Hs. unfold norm.ppf. simpl.
  rewrite (ltb_lt 0 sigma), !eqb_refl, (ltb_ge 1 1), (ltb_lt 0 1) by lra.
  simpl. unfold F.inf_times. rewrite (ltb_lt 0 sigma) by lra. reflexivity.
Qed.

(** ** Value at risk *)

Section ValueAtRisk.

(** [Phi] is the distribution function of the standard normal distribution
    and [ndtri] scipy's inverse of it; of the two, only the following is
    used. *)
Variable Phi : R -> R.
Variable ndtri : float64 -> float64.
Hypothesis Phi_increasing : forall x y : R, x < y -> Phi x < Phi y.
Hypothesis ndtri_quantile :
  forall a : R, 0 < a < 1 -> exists z : R, ndtri (Fin a) = Fin z /\ Phi z = a.

Lemma Phi_injective (x y : R) : Phi x = Phi y -> x = y.
Proof.
  intros H. destruct (Rtotal_order x y) as [Hlt | [Heq | Hgt]].
  - apply Phi_increasing in Hlt. lra.
  - exact Heq.
  - apply Phi_increasing in Hgt. lra.
Qed.

Lemma percent_point_quantile (mu sigma a : R) :
  0 < sigma -> 0 < a < 1 ->
  exists z : R,
    ndtri (Fin a) = Fin z /\ Phi z = a /\
    Notebook.percent_point ndtri (Fin a) (Fin mu) (Fin sigma)
    = Fin (z * sigma + mu).
Proof.
  intros Hs Ha. destruct (ndtri_quantile a Ha) as [z [Hz HP]].
  exists z. repeat split; try assumption.
  unfold Notebook.percent_point. rewrite ppf_interior by assumption.
  rewrite Hz. reflexivity.
Qed.

(** C1. VaR Estimator: for every expected investment value [mu], investment
    standard deviation [sigma > 0], confidence level [alpha] in (0, 1) and
    notional [V], the script's [percent_point] is the number [x] with
    [P(X <= x) = alpha] for [X] normal with mean [mu] and standard deviation
    [sigma], the only such number, and [value_at_risk] is [V - x]. *)
Theorem value_at_risk_quantile (mu sigma alpha V : R) :
  0 < sigma -> 0 < alpha < 1 ->
  exists x : R,
    Math.cdf Phi mu sigma x = alpha /\
    (forall y : R, Math.cdf Phi mu sigma y = alpha -> y = x) /\
    Notebook.percent_point ndtri (Fin alpha) (Fin mu) (Fin sigma) = Fin x /\
    Notebook.value_at_risk (Fin V)
      (Notebook.percent_point ndtri (Fin alpha) (Fin mu) (Fin sigma))
    = Fin (V - x).
Proof.
  intros Hs Ha.
  destruct (percent_point_quantile mu sigma alpha Hs Ha) as [z [Hz [HP Hpp]]].
  exists (z * sigma + mu).
  assert (Hx : (z * sigma + mu - mu) / sigma = z) by (field; lra).
  split; [| split; [| split]].
  - unfold Math.cdf. rewrite Hx. exact HP.
  - intros y Hy. unfold Math.cdf in Hy. rewrite <- HP in Hy.
    apply Phi_injective in Hy. rewrite <- Hy. field. lra.
  - exact Hpp.
  - rewrite Hpp. reflexivity.
Qed.



End ValueAtRisk.

(** The logistic distribution satisfies what is assumed of [Phi] and
    [ndtri]. *)
Lemma logistic_cdf_increasing (x y : R) :
  x < y -> logistic_cdf x < logistic_cdf y.
Proof.
  intros H. unfold logistic_cdf.
  assert (Hx := exp_pos (- x)). assert (Hy := exp_pos (- y)).
  assert (He : exp (- y) < exp (- x)) by (apply exp_increasing; lra).
  apply Rinv_lt_contravar; [nra | lra].
Qed.

Lemma logit_quantile (a : R) :
  0 < a < 1 -> exists z : R, logit (Fin a) = Fin z /\ logistic_cdf z = a.
Proof.
  intros [H0 H1]. exists (ln (a / (1 - a))). split; [reflexivity |].
  unfold logistic_cdf.
  assert (Hq : 0 < a / (1 - a)) by (apply Rdiv_lt_0_compat; lra).
  rewrite exp_Ropp, exp_ln by exact Hq. field. lra.
Qed.

Lemma value_at_risk_quantile_witness :
  exists x : R,
    Math.cdf logistic_cdf (10008 / 10) 14 x = 5 / 100 /\
    (forall y : R, Math.cdf logistic_cdf (10008 / 10) 14 y = 5 / 100 -> y = x) /\
    Notebook.percent_point logit (Fin (5 / 100)) (Fin (10008 / 10)) (Fin 14) = Fin x /\
    Notebook.value_at_risk (Fin 1000)
      (Notebook.percent_point logit (Fin (5 / 100)) (Fin (10008 / 10)) (Fin 14))
    = Fin (1000 - x).
Proof.
  apply (value_at_risk_quantile logistic_cdf logit
           logistic_cdf_increasing logit_quantile (10008 / 10) 14 (5 / 100) 1000);
    lra.
Defined.


(** ** Confidence levels out of range *)

Lemma sub_NaN (a : float64) : F.sub a NaN = NaN.
Proof. destruct a; reflexivity. Qed.

(** C5, as the script behaves.  For a confidence level [alpha] that is not
    in (0, 1) the VaR Estimator raises nothing.  Below 0 and above 1,
    [norm.ppf] returns NaN without calling the quantile function, whatever
    the mean, deviation and notional are, and the VaR is NaN.  At the two
    ends, with a finite mean and notional and [sigma > 0], the quantile is
    the end of the support and the VaR is infinite: [+inf] at [alpha = 0],
    [-inf] at [alpha = 1]. *)
Theorem value_at_risk_bad_confidence (ndtri : float64 -> float64) (alpha : R) :
  ~ (0 < alpha < 1) ->
  (alpha <> 0 -> alpha <> 1 ->
   forall mu sigma V : float64,
     Notebook.value_at_risk V (Notebook.percent_point ndtri (Fin alpha) mu sigma)
     = NaN) /\
  (forall mu sigma V : R, 0 < sigma ->
     (alpha = 0 ->
      Notebook.value_at_risk (Fin V)
        (Notebook.percent_point ndtri (Fin alpha) (Fin mu) (Fin sigma)) = PInf) /\
     (alpha = 1 ->
      Notebook.value_at_risk (Fin V)
        (Notebook.percent_point ndtri (Fin alpha) (Fin mu) (Fin sigma)) = NInf)).
Proof.
  intros Hout. split.
  - intros H0 H1 mu sigma V. unfold Notebook.percent_point.
    rewrite ppf_outside by lra. apply sub_NaN.
  - intros mu sigma V Hs. unfold Notebook.percent_point. split; intros ->.
    + rewrite ppf_zero by exact Hs. reflexivity.
    + rewrite ppf_one by exact Hs. reflexivity.
Qed.

Lemma value_at_risk_bad_confidence_witness :
  (12 / 10 <> 0 -> 12 / 10 <> 1 ->
   forall mu sigma V : float64,
     Notebook.value_at_risk V (Notebook.percent_point logit (Fin (12 / 10)) mu sigma)
     = NaN) /\
  (forall mu sigma V : R, 0 < sigma ->
     (12 / 10 = 0 ->
      Notebook.value_at_risk (Fin V)
        (Notebook.percent_point logit (Fin (12 / 10)) (Fin mu) (Fin sigma)) = PInf) /\
     (12 / 10 = 1 ->
      Notebook.value_at_risk (Fin V)
        (Notebook.percent_point logit (Fin (12 / 10)) (Fin mu) (Fin sigma)) = NInf)).
Proof. apply (value_at_risk_bad_confidence logit (12 / 10)). lra. Defined.

(** ** Returns *)

Lemma combine_map {A B C : Type} (f : A -> B) (g : A -> C) (l : list A) :
  combine (map f l) (map g l) = map (fun a => (f a, g a)) l.
Proof. induction l as [| a l IH]; simpl; [reflexivity | rewrite IH; reflexivity]. Qed.

(** The frame is processed column by column. *)
Lemma pct_change_columns (df : DataFrame) :
  pd.pct_change df = map pd.pct_change_col df.
Proof.
  unfold pd.pct_change, pd.sub_scalar, pd.div, pd.shift, pd.fillna_pad.
  rewrite (map_map (pd.pad NaN) pd.shift1 df), combine_map, !map_map.
  apply map_ext. intros c. cbn [fst snd]. rewrite map_map. reflexivity.
Qed.

Lemma combine_removelast (v : float64) (c : Series) :
  combine c (removelast (v :: c)) = with_prev v c.
Proof.
  revert v. induction c as [| u c IH]; intros v; [reflexivity |].
  change (removelast (v :: u :: c)) with (v :: removelast (u :: c)).
  cbn [combine with_prev]. rewrite IH. reflexivity.
Qed.

Lemma combine_shift1 (c : Series) : combine c (pd.shift1 c) = with_prev NaN c.
Proof.
  destruct c as [| v c]; [reflexivity |].
  unfold pd.shift1.
  change (combine (v :: c) (NaN :: removelast (v :: c)))
    with ((v, NaN) :: combine c (removelast (v :: c))).
  rewrite combine_removelast. reflexivity.
Qed.

Lemma with_prev_pad (val : float64) (c : Series) :
  map (fun p => F.sub (F.div (fst p) (snd p)) (Fin 1)) (with_prev val (pd.pad val c))
  = pct_from val c.
Proof.
  revert val. induction c as [| v c IH]; intros val; [reflexivity |].
  simpl. destruct (F.isnan v); simpl; rewrite IH; reflexivity.
Qed.

Lemma pct_change_col_from (c : Series) :
  pd.pct_change_col c = pct_from NaN c.
Proof.
  unfold pd.pct_change_col. rewrite combine_shift1. apply with_prev_pad.
Qed.

Lemma pct_from_length (prev : float64) (c : Series) :
  length (pct_from prev c) = length c.
Proof.
  revert prev. induction c as [| v c IH]; intros prev; simpl;
    [reflexivity | rewrite IH; reflexivity].
Qed.

Lemma pct_change_col_length (c : Series) :
  length (pd.pct_change_col c) = length c.
Proof. rewrite pct_change_col_from. apply pct_from_length. Qed.

Lemma pct_from_app (prev : float64) (c1 c2 : Series) :
  pct_from prev (c1 ++ c2) = pct_from prev c1 ++ pct_from (carry prev c1) c2.
Proof.
  revert prev. induction c1 as [| v c1 IH]; intros prev; simpl;
    [reflexivity | rewrite IH; reflexivity].
Qed.

Lemma carry_app (prev : float64) (c1 c2 : Series) :
  carry prev (c1 ++ c2) = carry (carry prev c1) c2.
Proof.
  revert prev. induction c1 as [| v c1 IH]; intros prev; simpl;
    [reflexivity | apply IH].
Qed.

Lemma carry_missing (prev : float64) (gap : Series) :
  Forall (fun v => v = NaN) gap -> carry prev gap = prev.
Proof.
  induction 1 as [| v gap Hv _ IH]; simpl; [reflexivity |].
  subst v. exact IH.
Qed.

Lemma pct_from_missing (p : R) (gap : Series) :
  p <> 0 -> Forall (fun v => v = NaN) gap ->
  pct_from (Fin p) gap = repeat (Fin 0) (length gap).
Proof.
  intros Hp. induction 1 as [| v gap Hv _ IH]; simpl; [reflexivity |].
  subst v. simpl. rewrite (eqb_neq p 0 Hp), IH.
  change (F.sub (Fin (p / p)) (Fin 1)) with (Fin (p / p - 1)).
  replace (p / p - 1) with 0 by (field; exact Hp). reflexivity.
Qed.

Lemma pct_from_Fin (prev : R) (p : list R) :
  0 < prev -> Forall (fun x => 0 < x) p ->
  pct_from (Fin prev) (liftv p) = liftv (rets prev p).
Proof.
  intros Hprev H. revert prev Hprev.
  induction H as [| x p Hx _ IH]; intros prev Hprev; simpl; [reflexivity |].
  rewrite (eqb_neq prev 0) by lra. rewrite IH by exact Hx. reflexivity.
Qed.

Lemma rets_length (prev : R) (p : list R) : length (rets prev p) = length p.
Proof.
  revert prev. induction p as [| x p IH]; intros prev; simpl;
    [reflexivity | rewrite IH; reflexivity].
Qed.

Lemma rets_nth (prev : R) (p : list R) (t : nat) :
  (t < length p)%nat ->
  nth t (rets prev p) 0 = nth t p 0 / nth t (prev :: p) 0 - 1.
Proof.
  revert prev t. induction p as [| x p IH]; intros prev t Ht; simpl in Ht; [lia |].
  destruct t as [| t]; [reflexivity |].
  simpl. rewrite IH by lia. reflexivity.
Qed.

Lemma rets_simple_returns (x : R) (p : list R) :
  rets x p = Math.simple_returns (x :: p).
Proof.
  apply (nth_ext _ _ 0 0).
  - unfold Math.simple_returns. rewrite rets_length, length_map, length_seq.
    simpl. lia.
  - intros t Ht. rewrite rets_length in Ht. rewrite rets_nth by exact Ht.
    unfold Math.simple_returns.
    rewrite (nth_map_in _ _ _ 0%nat) by (rewrite length_seq; simpl; lia).
    rewrite seq_nth by (simpl; lia).
    replace (1 + t - 1)%nat with t by lia. reflexivity.
Qed.

Lemma pct_change_col_Fin (x : R) (p : list R) :
  Forall (fun x => 0 < x) (x :: p) ->
  pd.pct_change_col (liftv (x :: p))
  = NaN :: liftv (Math.simple_returns (x :: p)).
Proof.
  intros H. inversion H as [| ? ? Hx Hp]; subst.
  rewrite pct_change_col_from. simpl pct_from. simpl.
  rewrite pct_from_Fin by assumption. rewrite rets_simple_returns. reflexivity.
Qed.

(** ** Statistics over the observed values *)

Lemma observed_liftv (r : list R) : observed (liftv r) = r.
Proof. induction r as [| a r IH]; simpl; [reflexivity | rewrite IH; reflexivity]. Qed.

Lemma observed_pairs_liftv (r1 r2 : list R) :
  observed_pairs (liftv r1) (liftv r2) = combine r1 r2.
Proof.
  revert r2. induction r1 as [| a r1 IH]; intros [| b r2]; try reflexivity.
  unfold observed_pairs in *. simpl. rewrite IH. reflexivity.
Qed.

Lemma fold_fill_zero (c : Series) (acc : R) :
  Forall number_or_missing c ->
  fold_left F.add (map (fun v => if F.isnan v then Fin 0 else v) c) (Fin acc)
  = Fin (fold_left Rplus (observed c) acc).
Proof.
  intros H. revert acc.
  induction H as [| v c Hv _ IH]; intros acc; [reflexivity |].
  destruct Hv as [-> | [a ->]]; simpl.
  - rewrite IH. do 2 f_equal. ring.
  - apply IH.
Qed.

Lemma sum_fill_zero (c : Series) :
  Forall number_or_missing c ->
  F.sum (map (fun v => if F.isnan v then Fin 0 else v) c) = Fin (rsum (observed c)).
Proof. apply fold_fill_zero. Qed.

Lemma count_notna (c : Series) :
  Forall number_or_missing c ->
  length (filter pd.notna c) = length (observed c).
Proof.
  induction 1 as [| v c Hv _ IH]; [reflexivity |].
  destruct Hv as [-> | [a ->]]; simpl; rewrite IH; reflexivity.
Qed.

Lemma arithmetic_mean_rsum (x : list R) :
  Math.arithmetic_mean x = rsum x / INR (length x).
Proof. unfold Math.arithmetic_mean. rewrite <- rsum_big. reflexivity. Qed.

(** [DataFrame.mean] skips the missing values: the mean of a column is the
    arithmetic mean of its numbers, and NaN when it has none. *)
Lemma nanmean_observed (c : Series) :
  Forall number_or_missing c ->
  pd.nanmean c = match observed c with
                 | [] => NaN
                 | _ :: _ => Fin (Math.arithmetic_mean (observed c))
                 end.
Proof.
  intros H. unfold pd.nanmean.
  rewrite sum_fill_zero, count_notna by exact H.
  rewrite arithmetic_mean_rsum.
  destruct (observed c) as [| a o] eqn:E; [reflexivity |].
  change (Nat.ltb 0 (length (a :: o))) with true. cbv iota.
  unfold F.of_nat. rewrite div_Fin; [reflexivity |].
  apply not_0_INR. discriminate.
Qed.

(** ** Welford's pass *)

(** Rows with a value that is not a number leave the state as it is. *)
Lemma welford_skip (l : list (float64 * float64)) (s : pd.welford) :
  fold_left pd.welford_step l s
  = fold_left pd.welford_step (map lift_pair (flat_map select_pair l)) s.
Proof.
  revert s. induction l as [| [vx vy] l IH]; intros s; [reflexivity |].
  destruct vx, vy; simpl; try apply IH.
Qed.

Lemma rsum_snoc (l : list R) (x : R) : rsum (l ++ [x]) = rsum l + x.
Proof. rewrite rsum_app, rsum_cons. unfold rsum. simpl. ring. Qed.

Lemma welford_inv_step (l : list (R * R)) (a b : R) (s : pd.welford) :
  welford_inv l s ->
  welford_inv (l ++ [(a, b)]) (pd.welford_step s (Fin a, Fin b)).
Proof.
  intros (mx & my & sx & sy & c & -> & Hx & Hy & -> & -> & ->).
  set (n := INR (length l)) in *.
  assert (Hn : n + 1 <> 0) by (pose proof (pos_INR (length l)); unfold n; lra).
  unfold pd.welford_step. cbn [F.isfinite andb pd.nobs pd.meanx pd.meany
    pd.ssqdm_x pd.ssqdm_y pd.covxy].
  unfold F.of_nat. rewrite S_INR. fold n. rewrite (div_Fin 1 (n + 1) Hn).
  cbn [F.sub F.add F.mul F.opp].
  unfold welford_inv. rewrite length_app. simpl length.
  replace (length l + 1)%nat with (S (length l)) by lia. rewrite S_INR. fold n.
  rewrite !map_app. cbn [map fst snd]. rewrite !rsum_snoc.
  do 5 eexists. split; [reflexivity |].
  rewrite <- Hx, <- Hy.
  repeat split; field; exact Hn.
Qed.

Lemma welford_inv_fold (l : list (R * R)) :
  welford_inv l (fold_left pd.welford_step (map lift_pair l) pd.welford_init).
Proof.
  induction l as [| [a b] l IH] using rev_ind.
  - exists 0, 0, 0, 0, 0. simpl. unfold rsum. simpl. repeat split; ring.
  - rewrite map_app, fold_left_app. simpl. apply welford_inv_step, IH.
Qed.

Lemma combine_fst_snd {A B : Type} (l : list (A * B)) :
  combine (map fst l) (map snd l) = l.
Proof.
  induction l as [| [a b] l IH]; simpl; [reflexivity | rewrite IH; reflexivity].
Qed.

(** The sum of the products of the deviations, by the sums of the values. *)
Lemma co_moment_sums (x y : list R) :
  length x = length y -> (0 < length x)%nat ->
  Math.co_moment x y = rdot x y - rsum x * rsum y / INR (length x).
Proof.
  intros Hl Hn. unfold Math.co_moment. rewrite !arithmetic_mean_rsum.
  set (mx := rsum x / INR (length x)). set (my := rsum y / INR (length y)).
  rewrite (big_sum_ext _ _
    (fun t => nth t x 0 * nth t y 0
              + (- my * nth t x 0 + (- mx * nth t y 0 + mx * my)))).
  2:{ intros t _. ring. }
  rewrite !big_sum_plus, !big_sum_scal_l, big_sum_const.
  unfold mx, my. rewrite (rdot_big x y Hl), (rsum_big x), (rsum_big y), <- Hl.
  unfold Math.dot. field. apply not_0_INR. lia.
Qed.

Lemma co_moment_sym (x y : list R) :
  length x = length y -> Math.co_moment x y = Math.co_moment y x.
Proof.
  intros Hl. unfold Math.co_moment. rewrite Hl. apply big_sum_ext.
  intros t _. ring.
Qed.

Lemma co_moment_single (a b : R) : Math.co_moment [a] [b] = 0.
Proof.
  unfold Math.co_moment, Math.arithmetic_mean. simpl. field.
Qed.

Lemma welford_result (l : list (R * R)) :
  l <> [] ->
  let s := fold_left pd.welford_step (map lift_pair l) pd.welford_init in
  pd.nobs s = length l /\
  pd.covxy s = Fin (Math.co_moment (map fst l) (map snd l)).
Proof.
  intros Hl s.
  destruct (welford_inv_fold l) as (mx & my & sx & sy & c & Hs & Hx & Hy & _ & _ & Hc).
  fold s in Hs. rewrite Hs. cbn [pd.nobs pd.covxy]. split; [reflexivity |].
  assert (Hn : (0 < length l)%nat) by (destruct l; [contradiction | simpl; lia]).
  assert (Hn' : INR (length l) <> 0) by (apply not_0_INR; lia).
  rewrite co_moment_sums by (rewrite ?length_map; auto).
  unfold rdot. rewrite combine_fst_snd, length_map, Hc, <- Hx, <- Hy.
  f_equal. field. exact Hn'.
Qed.

(** [nancorr] on two columns: the sum of the products of the deviations over
    the rows in which both are numbers, divided by their count less one; NaN
    when there is no such row or only one. *)
Lemma nancorr_entry_pairs (x y : Series) :
  pd.nancorr_entry true 1 x y = pairwise_cov x y.
Proof.
  unfold pairwise_cov, cov_of_pairs, pd.nancorr_entry, observed_pairs.
  rewrite welford_skip.
  destruct (flat_map select_pair (combine x y)) as [| p l] eqn:E; [reflexivity |].
  destruct (welford_result (p :: l)) as [Hn Hc]; [discriminate |].
  rewrite Hn, Hc. change (Nat.ltb (length (p :: l)) 1) with false. cbv iota.
  change (F.sub (F.of_nat (length (p :: l))) (Fin 1))
    with (Fin (INR (length (p :: l)) - 1)).
  destruct l as [| p' l].
  - destruct p as [a b]. simpl map. rewrite co_moment_single. simpl.
    replace (1 - 1) with 0 by ring. rewrite !eqb_refl. simpl.
    unfold F.inf_times. rewrite (ltb_ge 0 0) by lra. reflexivity.
  - assert (H : INR (length (p :: p' :: l)) - 1 <> 0).
    { change (length (p :: p' :: l)) with (S (S (length l))).
      rewrite !S_INR. pose proof (pos_INR (length l)). lra. }
    cbn [F.eq]. rewrite (eqb_neq _ _ H). reflexivity.
Qed.

(** ** The covariance frame *)

Lemma observed_pairs_swap (x y : Series) :
  observed_pairs y x = map swap (observed_pairs x y).
Proof.
  unfold observed_pairs. revert y.
  induction x as [| a x IH]; intros [| b y]; try reflexivity.
  simpl. rewrite map_app, IH. f_equal. destruct a, b; reflexivity.
Qed.

Lemma co_moment_swap (l : list (R * R)) :
  Math.co_moment (map fst (map swap l)) (map snd (map swap l))
  = Math.co_moment (map fst l) (map snd l).
Proof.
  assert (H1 : map fst (map swap l) = map snd l)
    by (rewrite map_map; apply map_ext; intros []; reflexivity).
  assert (H2 : map snd (map swap l) = map fst l)
    by (rewrite map_map; apply map_ext; intros []; reflexivity).
  rewrite H1, H2. apply co_moment_sym. rewrite !length_map. reflexivity.
Qed.

Lemma cov_of_pairs_swap (l : list (R * R)) :
  cov_of_pairs (map swap l) = cov_of_pairs l.
Proof.
  destruct l as [| p l]; [reflexivity |].
  transitivity
    (F.div (Fin (Math.co_moment (map fst (map swap (p :: l)))
                                (map snd (map swap (p :: l)))))
           (Fin (INR (length (map swap (p :: l))) - 1))); [reflexivity |].
  rewrite co_moment_swap, length_map. reflexivity.
Qed.

Lemma pairwise_cov_sym (x y : Series) : pairwise_cov x y = pairwise_cov y x.
Proof.
  unfold pairwise_cov. rewrite (observed_pairs_swap x y), cov_of_pairs_swap.
  reflexivity.
Qed.

Lemma map_seq_nth {A B : Type} (f : A -> B) (l : list A) (d : A) :
  map (fun i => f (nth i l d)) (seq 0 (length l)) = map f l.
Proof.
  induction l as [| a l IH]; [reflexivity |].
  simpl. f_equal. rewrite <- seq_shift, map_map. exact IH.
Qed.

(** [nancorr] computes one triangle and mirrors it; the covariance being
    symmetric, every entry is the covariance of its row and column. *)
Lemma nancorr_frame (mat : DataFrame) :
  pd.nancorr mat true 1
  = map (fun cj => map (fun ci => pairwise_cov ci cj) mat) mat.
Proof.
  unfold pd.nancorr.
  transitivity
    (map (fun j => map (fun i => pairwise_cov (nth i mat []) (nth j mat []))
                       (seq 0 (length mat)))
         (seq 0 (length mat))).
  - apply map_ext. intros j. apply map_ext. intros i.
    rewrite !nancorr_entry_pairs.
    destruct (Nat.leb j i); [reflexivity | apply pairwise_cov_sym].
  - rewrite <- (map_seq_nth (fun cj => map (fun ci => pairwise_cov ci cj) mat) mat []).
    apply map_ext. intros j.
    apply (map_seq_nth (fun ci => pairwise_cov ci (nth j mat [])) mat []).
Qed.

Lemma pct_from_head (v : float64) (c : Series) :
  exists r, pct_from NaN (v :: c) = NaN :: r.
Proof.
  simpl. eexists. f_equal.
  destruct (F.isnan v); [reflexivity | destruct v; reflexivity].
Qed.

(** A frame of returns with at least one row has a missing value, so its
    covariance is [nancorr]'s. *)
Lemma cov_of_returns (data : DataFrame) (v : float64) (c : Series) :
  In (v :: c) data ->
  pd.cov (pd.pct_change data)
  = map (fun cj => map (fun ci => pairwise_cov ci cj) (pd.pct_change data))
        (pd.pct_change data).
Proof.
  intros Hin. unfold pd.cov.
  assert (H : forallb (forallb pd.notna) (pd.pct_change data) = false).
  { apply not_true_is_false. intros Hall. rewrite forallb_forall in Hall.
    specialize (Hall (pd.pct_change_col (v :: c))).
    rewrite pct_change_col_from in Hall.
    destruct (pct_from_head v c) as [r Hr].
    rewrite Hr in Hall. simpl in Hall.
    assert (false = true); [| discriminate].
    apply Hall. rewrite <- Hr, <- pct_change_col_from.
    rewrite pct_change_columns. apply in_map, Hin. }
  rewrite H. apply nancorr_frame.
Qed.

(** ** Return statistics of a complete price table *)

Lemma simple_returns_length (p : list R) :
  length (Math.simple_returns p) = (length p - 1)%nat.
Proof. unfold Math.simple_returns. rewrite length_map, length_seq. reflexivity. Qed.

Lemma simple_returns_nth (p : list R) (t : nat) :
  (1 <= t < length p)%nat ->
  nth (t - 1) (Math.simple_returns p) 0 = nth t p 0 / nth (t - 1) p 0 - 1.
Proof.
  intros Ht. unfold Math.simple_returns.
  rewrite (nth_map_in _ _ _ 0%nat) by (rewrite length_seq; lia).
  rewrite seq_nth by lia. replace (1 + (t - 1))%nat with t by lia. reflexivity.
Qed.

Lemma map_fst_combine {A B : Type} (a : list A) (b : list B) :
  length a = length b -> map fst (combine a b) = a.
Proof.
  revert b. induction a as [| x a IH]; intros [| y b] H; try discriminate H;
    [reflexivity |].
  simpl. rewrite IH by (simpl in H; lia). reflexivity.
Qed.

Lemma map_snd_combine {A B : Type} (a : list A) (b : list B) :
  length a = length b -> map snd (combine a b) = b.
Proof.
  revert b. induction a as [| x a IH]; intros [| y b] H; try discriminate H;
    [reflexivity |].
  simpl. rewrite IH by (simpl in H; lia). reflexivity.
Qed.

Lemma returns_complete (T : nat) (prices : list (list R)) :
  (1 <= T)%nat -> positive_prices T prices ->
  Notebook.returns (liftm prices)
  = map (fun r => NaN :: liftv r) (map Math.simple_returns prices).
Proof.
  intros HT H. unfold Notebook.returns, liftm. rewrite pct_change_columns.
  rewrite !map_map. apply map_ext_in. intros p Hp.
  unfold positive_prices in H. rewrite Forall_forall in H.
  destruct (H p Hp) as [Hl Hpos].
  destruct p as [| x p]; [simpl in Hl; lia |].
  apply pct_change_col_Fin, Hpos.
Qed.

Lemma number_or_missing_liftv (r : list R) :
  Forall number_or_missing (NaN :: liftv r).
Proof.
  constructor; [left; reflexivity |].
  induction r as [| a r IH]; constructor; [right; eexists; reflexivity | exact IH].
Qed.

Lemma nanmean_complete (r : list R) :
  r <> [] -> pd.nanmean (NaN :: liftv r) = Fin (Math.arithmetic_mean r).
Proof.
  intros Hr. rewrite nanmean_observed by apply number_or_missing_liftv.
  change (observed (NaN :: liftv r)) with (observed (liftv r)).
  rewrite observed_liftv. destruct r; [contradiction | reflexivity].
Qed.

Lemma pairwise_cov_complete (r1 r2 : list R) :
  length r1 = length r2 -> r1 <> [] ->
  pairwise_cov (NaN :: liftv r1) (NaN :: liftv r2)
  = F.div (Fin (Math.co_moment r1 r2)) (Fin (INR (length r1) - 1)).
Proof.
  intros Hl Hr. unfold pairwise_cov.
  change (observed_pairs (NaN :: liftv r1) (NaN :: liftv r2))
    with (observed_pairs (liftv r1) (liftv r2)).
  rewrite observed_pairs_liftv.
  destruct r1 as [| a r1]; [contradiction |].
  destruct r2 as [| b r2]; [discriminate Hl |].
  transitivity
    (F.div (Fin (Math.co_moment (map fst (combine (a :: r1) (b :: r2)))
                                (map snd (combine (a :: r1) (b :: r2)))))
           (Fin (INR (length (combine (a :: r1) (b :: r2))) - 1)));
    [reflexivity |].
  rewrite map_fst_combine, map_snd_combine, length_combine, <- Hl, Nat.min_id
    by exact Hl.
  reflexivity.
Qed.

Lemma cov_complete (T : nat) (prices : list (list R)) :
  (2 <= T)%nat -> positive_prices T prices ->
  Notebook.cov_matrix (Notebook.returns (liftm prices))
  = map (fun rj =>
           map (fun ri => F.div (Fin (Math.co_moment ri rj)) (Fin (INR (T - 1) - 1)))
               (map Math.simple_returns prices))
        (map Math.simple_returns prices).
Proof.
  intros HT H. unfold Notebook.cov_matrix.
  destruct prices as [| p0 prices0] eqn:E; [reflexivity |]. rewrite <- E in *.
  assert (Hlen : forall p, In p prices -> length (Math.simple_returns p) = (T - 1)%nat).
  { intros p Hp. rewrite simple_returns_length.
    unfold positive_prices in H. rewrite Forall_forall in H.
    destruct (H p Hp) as [-> _]. reflexivity. }
  assert (Hp0 : exists x c, In (x :: c) (liftm prices)).
  { assert (Hin : In p0 prices) by (rewrite E; left; reflexivity).
    unfold positive_prices in H. rewrite Forall_forall in H.
    destruct (H p0 Hin) as [Hl _].
    destruct p0 as [| x p0]; [simpl in Hl; lia |].
    exists (Fin x), (liftv p0). unfold liftm.
    change (Fin x :: liftv p0) with (liftv (x :: p0)). apply in_map, Hin. }
  destruct Hp0 as (x & c & Hin).
  unfold Notebook.returns at 1. rewrite (cov_of_returns _ x c Hin).
  fold (Notebook.returns (liftm prices)).
  rewrite (returns_complete T) by (assumption || lia).
  rewrite !map_map. apply map_ext_in. intros pj Hj.
  rewrite !map_map. apply map_ext_in. intros pi Hi.
  rewrite pairwise_cov_complete.
  - rewrite (Hlen pi Hi). reflexivity.
  - rewrite (Hlen pi Hi), (Hlen pj Hj). reflexivity.
  - intros Hnil. apply (f_equal (@length R)) in Hnil.
    rewrite (Hlen pi Hi) in Hnil. simpl in Hnil. lia.
Qed.

(** C4. Return Statistics: for a price table with all prices positive and
    at least 2 rows, the return of row [t >= 1] and ticker [j] is
    [p[t,j] / p[t-1,j] - 1] and the first row has no return (it is missing);
    the mean return vector is the arithmetic mean of each return column; and
    every covariance is the sum of the products of the deviations of the two
    return columns divided by the number of returns less one.  With exactly
    2 rows there is one return, that quotient is 0/0 and the covariance is
    NaN; from 3 rows on it is the real sample covariance. *)
Theorem return_statistics (T : nat) (prices : list (list R)) :
  (2 <= T)%nat -> positive_prices T prices ->
  let rets := map Math.simple_returns prices in
  let returns := Notebook.returns (liftm prices) in
  returns = map (fun r => NaN :: liftv r) rets /\
  (forall j t : nat, (j < length prices)%nat -> (1 <= t < T)%nat ->
     nth t (nth j returns []) NaN
     = Fin (nth t (nth j prices []) 0 / nth (t - 1) (nth j prices []) 0 - 1)) /\
  Notebook.mean_returns returns = map (fun r => Fin (Math.arithmetic_mean r)) rets /\
  Notebook.cov_matrix returns
  = map (fun rj =>
           map (fun ri => F.div (Fin (Math.co_moment ri rj)) (Fin (INR (T - 1) - 1)))
               rets) rets /\
  ((3 <= T)%nat ->
   Notebook.cov_matrix returns
   = map (fun rj => map (fun ri => Fin (Math.sample_covariance ri rj)) rets) rets).
Proof.
  intros HT H rets returns.
  assert (Hret : returns = map (fun r => NaN :: liftv r) rets)
    by (apply (returns_complete T); [lia | exact H]).
  assert (Hall : forall p, In p prices -> length p = T).
  { intros p Hp. unfold positive_prices in H. rewrite Forall_forall in H.
    apply H, Hp. }
  split; [exact Hret | split; [| split; [| split]]].
  - intros j t Hj Ht. rewrite Hret. unfold rets. rewrite map_map.
    rewrite (nth_map_in _ _ _ []) by exact Hj.
    assert (Hl : length (nth j prices []) = T) by (apply Hall, nth_In, Hj).
    destruct t as [| t]; [lia |]. cbn [nth]. unfold liftv.
    rewrite (nth_map_in _ _ _ 0) by (rewrite simple_returns_length; lia).
    replace t with (S t - 1)%nat at 1 by lia.
    rewrite simple_returns_nth by lia. reflexivity.
  - rewrite Hret. unfold Notebook.mean_returns, pd.mean, rets.
    rewrite !map_map. apply map_ext_in. intros p Hp.
    apply nanmean_complete. intros Hnil.
    apply (f_equal (@length R)) in Hnil.
    rewrite simple_returns_length, (Hall p Hp) in Hnil. simpl in Hnil. lia.
  - apply cov_complete; assumption.
  - intros HT3. unfold returns. rewrite (cov_complete T) by assumption.
    fold rets. apply map_ext_in. intros rj Hj. apply map_ext_in. intros ri Hi.
    assert (Hl : length ri = (T - 1)%nat).
    { unfold rets in Hi. apply in_map_iff in Hi. destruct Hi as (p & <- & Hp).
      rewrite simple_returns_length, (Hall p Hp). reflexivity. }
    unfold Math.sample_covariance. rewrite Hl. apply div_Fin.
    replace (T - 1)%nat with (S (S (T - 3))) by lia.
    rewrite !S_INR. pose proof (pos_INR (T - 3)). lra.
Qed.

Lemma example_prices_positive : positive_prices 3 example_prices.
Proof.
  unfold positive_prices, example_prices.
  repeat constructor; lra.
Qed.

Lemma return_statistics_witness :
  let rets := map Math.simple_returns example_prices in
  let returns := Notebook.returns (liftm example_prices) in
  returns = map (fun r => NaN :: liftv r) rets /\
  (forall j t : nat, (j < length example_prices)%nat -> (1 <= t < 3)%nat ->
     nth t (nth j returns []) NaN
     = Fin (nth t (nth j example_prices []) 0
            / nth (t - 1) (nth j example_prices []) 0 - 1)) /\
  Notebook.mean_returns returns = map (fun r => Fin (Math.arithmetic_mean r)) rets /\
  Notebook.cov_matrix returns
  = map (fun rj =>
           map (fun ri => F.div (Fin (Math.co_moment ri rj)) (Fin (INR (3 - 1) - 1)))
               rets) rets /\
  ((3 <= 3)%nat ->
   Notebook.cov_matrix returns
   = map (fun rj => map (fun ri => Fin (Math.sample_covariance ri rj)) rets) rets).
Proof.
  apply (return_statistics 3 example_prices); [lia | exact example_prices_positive].
Defined.

(** ** The run as a whole *)

Lemma mapM_dot_ok (w : list float64) (m : list (list float64)) :
  Forall (fun c => length c = length w) m ->
  mapM (np.dot w) m = Ok (map (np.inner w) m).
Proof.
  induction 1 as [| c m Hc _ IH]; [reflexivity |].
  simpl. unfold np.dot at 1. rewrite Hc, Nat.eqb_refl. simpl.
  rewrite IH. reflexivity.
Qed.

Lemma nancorr_shape (mat : DataFrame) (cov : bool) (minpv : nat) :
  length (pd.nancorr mat cov minpv) = length mat /\
  Forall (fun c => length c = length mat) (pd.nancorr mat cov minpv).
Proof.
  unfold pd.nancorr. split.
  - rewrite length_map, length_seq. reflexivity.
  - apply Forall_forall. intros c Hc. apply in_map_iff in Hc.
    destruct Hc as (j & <- & _). rewrite length_map, length_seq. reflexivity.
Qed.

Lemma np_cov_shape (m : list (list float64)) (ddof : Z) :
  length (np.cov m ddof) = length m /\
  Forall (fun c => length c = length m) (np.cov m ddof).
Proof.
  unfold np.cov. split.
  - rewrite !length_map. reflexivity.
  - apply Forall_forall. intros c Hc. apply in_map_iff in Hc.
    destruct Hc as (j & <- & _). rewrite !length_map. reflexivity.
Qed.

(** The covariance of a frame of [N] columns is an [N] by [N] frame. *)
Lemma cov_shape (df : DataFrame) :
  length (pd.cov df) = length df /\
  Forall (fun c => length c = length df) (pd.cov df).
Proof.
  unfold pd.cov. destruct (forallb (forallb pd.notna) df);
    [apply np_cov_shape | apply nancorr_shape].
Qed.

Lemma nrows_square (N : nat) (m : list (list float64)) :
  length m = N -> Forall (fun c => length c = N) m -> np.nrows m = N.
Proof.
  intros Hl Hc. destruct m as [| c m]; [exact Hl |].
  inversion Hc; assumption.
Qed.

Lemma port_stdev_ok (weights : list float64) (cov_matrix : DataFrame) :
  length cov_matrix = length weights ->
  Forall (fun c => length c = length weights) cov_matrix ->
  Notebook.port_stdev weights cov_matrix
  = Ok (np.sqrt (np.inner (map (np.inner weights) cov_matrix) weights)).
Proof.
  intros Hl Hc. unfold Notebook.port_stdev, Notebook.port_variance, np.dot_matrix.
  rewrite (nrows_square (length weights)), Nat.eqb_refl, mapM_dot_ok by assumption.
  simpl. unfold np.dot. rewrite length_map, Hl, Nat.eqb_refl. reflexivity.
Qed.

(** With as many weights as the frame has tickers, no cell raises, and the
    workspace holds the value of every assignment. *)
Lemma run_ok (ndtri : float64 -> float64) (weights : list float64)
  (portfolio_value confidence : float64) (data : DataFrame) :
  length weights = length data ->
  exists ws : Notebook.workspace,
    Notebook.run ndtri weights portfolio_value confidence data = Ok ws /\
    Notebook.ws_returns ws = Notebook.returns data /\
    Notebook.ws_mean_returns ws = Notebook.mean_returns (Notebook.returns data) /\
    Notebook.ws_port_mean ws
      = np.inner (Notebook.mean_returns (Notebook.returns data)) weights /\
    Notebook.ws_cov_matrix ws = Notebook.cov_matrix (Notebook.returns data) /\
    Notebook.ws_port_stdev ws
      = np.sqrt (np.inner (map (np.inner weights)
                               (Notebook.cov_matrix (Notebook.returns data)))
                          weights) /\
    Notebook.ws_investment_mean ws
      = Notebook.investment_mean (Notebook.ws_port_mean ws) portfolio_value /\
    Notebook.ws_investment_stdev ws
      = Notebook.investment_stdev portfolio_value (Notebook.ws_port_stdev ws) /\
    Notebook.ws_percent_point ws
      = Notebook.percent_point ndtri confidence
          (Notebook.ws_investment_mean ws) (Notebook.ws_investment_stdev ws) /\
    Notebook.ws_value_at_risk ws
      = Notebook.value_at_risk portfolio_value (Notebook.ws_percent_point ws) /\
    Notebook.ws_value_at_risks ws
      = Notebook.value_at_risks (Notebook.ws_value_at_risk ws).
Proof.
  intros Hw. unfold Notebook.run.
  assert (Hm : Notebook.port_mean (Notebook.mean_returns (Notebook.returns data)) weights
               = Ok (np.inner (Notebook.mean_returns (Notebook.returns data)) weights)).
  { unfold Notebook.port_mean, pd.dot, np.dot, Notebook.mean_returns, pd.mean,
      Notebook.returns.
    rewrite pct_change_columns, !length_map, Hw, Nat.eqb_refl. reflexivity. }
  assert (Hs : Notebook.port_stdev weights (Notebook.cov_matrix (Notebook.returns data))
               = Ok (np.sqrt (np.inner (map (np.inner weights)
                                (Notebook.cov_matrix (Notebook.returns data))) weights))).
  { destruct (cov_shape (Notebook.returns data)) as [Hl Hc].
    assert (Hr : length (Notebook.returns data) = length weights)
      by (unfold Notebook.returns; rewrite pct_change_columns, length_map;
          symmetry; exact Hw).
    rewrite Hr in Hl, Hc. apply port_stdev_ok; assumption. }
  rewrite Hm. cbn [bind]. rewrite Hs. cbn [bind].
  eexists. split; [reflexivity |]. cbn. repeat split.
Qed.

(** With any other number of weights the first product raises. *)
Lemma run_shape_mismatch (ndtri : float64 -> float64) (weights : list float64)
  (portfolio_value confidence : float64) (data : DataFrame) :
  length weights <> length data ->
  Notebook.run ndtri weights portfolio_value confidence data = Raise ShapeMismatch.
Proof.
  intros Hw. unfold Notebook.run, Notebook.port_mean, pd.dot.
  rewrite dot_mismatch; [reflexivity |].
  unfold Notebook.mean_returns, pd.mean, Notebook.returns.
  rewrite pct_change_columns, !length_map. auto.
Qed.

(** C5, counterexample to the claim as stated: with the confidence level
    1.2 the run does not fail; it completes and reports NaN as the VaR. *)
Lemma confidence_above_one_runs :
  exists ws : Notebook.workspace,
    Notebook.run logit (liftv example_weights) (Fin 1000) (Fin (12 / 10))
      (liftm example_prices) = Ok ws /\
    Notebook.ws_value_at_risk ws = NaN.
Proof.
  destruct (run_ok logit (liftv example_weights) (Fin 1000) (Fin (12 / 10))
              (liftm example_prices) eq_refl)
    as (ws & Hrun & _ & _ & _ & _ & _ & _ & _ & Hpp & Hvar & _).
  exists ws. split; [exact Hrun |].
  rewrite Hvar, Hpp. unfold Notebook.percent_point.
  rewrite ppf_outside by lra. apply sub_NaN.
Qed.

(** ** Too little history *)

(** C6, counterexample to the claim as stated: on a price table of one row
    the statistics are NaN and nothing fails; the run completes and reports
    NaN as the VaR. *)
Lemma one_row_runs :
  exists ws : Notebook.workspace,
    Notebook.run logit (liftv example_weights) (Fin 1000) (Fin (5 / 100))
      one_row_prices = Ok ws /\
    Notebook.ws_returns ws = [[NaN]; [NaN]] /\
    Notebook.ws_mean_returns ws = [NaN; NaN] /\
    Notebook.ws_cov_matrix ws = [[NaN; NaN]; [NaN; NaN]] /\
    Notebook.ws_value_at_risk ws = NaN.
Proof.
  eexists. split; [reflexivity |]. repeat split.
Qed.

Lemma map_const_repeat {A B : Type} (b : B) (l : list A) :
  map (fun _ => b) l = repeat b (length l).
Proof. induction l as [| a l IH]; simpl; [reflexivity | rewrite IH; reflexivity]. Qed.

Lemma map_const_repeat' {A B : Type} (f : A -> B) (b : B) (l : list A) :
  (forall a, In a l -> f a = b) -> map f l = repeat b (length l).
Proof.
  intros H. rewrite <- map_const_repeat. apply map_ext_in. exact H.
Qed.

Lemma mul_NaN_r (a : float64) : F.mul a NaN = NaN.
Proof. destruct a; reflexivity. Qed.

Lemma fold_add_NaN (l : list float64) : fold_left F.add l NaN = NaN.
Proof. induction l as [| a l IH]; [reflexivity | exact IH]. Qed.

Lemma inner_NaN_r (a : list float64) (n : nat) :
  length a = S n -> np.inner a (repeat NaN (S n)) = NaN.
Proof.
  intros H. destruct a as [| x a]; [discriminate H |].
  unfold np.inner, F.sum. simpl. rewrite mul_NaN_r. apply fold_add_NaN.
Qed.

Lemma inner_NaN_l (a : list float64) (n : nat) :
  length a = S n -> np.inner (repeat NaN (S n)) a = NaN.
Proof.
  intros H. destruct a as [| x a]; [discriminate H |].
  unfold np.inner, F.sum. simpl. apply fold_add_NaN.
Qed.

Lemma pct_change_col_short (c : Series) :
  (length c < 2)%nat -> pd.pct_change_col c = repeat NaN (length c).
Proof.
  intros H. destruct c as [| v [| u c]]; [reflexivity | | simpl in H; lia].
  rewrite pct_change_col_from. destruct (pct_from_head v []) as [r Hr].
  assert (Hl := pct_from_length NaN [v]). rewrite Hr in *.
  destruct r; [reflexivity | discriminate Hl].
Qed.

Lemma returns_short (T : nat) (data : DataFrame) :
  (T < 2)%nat -> Forall (fun c => length c = T) data ->
  Notebook.returns data = repeat (repeat NaN T) (length data).
Proof.
  intros HT H. unfold Notebook.returns. rewrite pct_change_columns.
  rewrite <- map_const_repeat. apply map_ext_in. intros c Hc.
  rewrite Forall_forall in H. rewrite <- (H c Hc).
  apply pct_change_col_short. rewrite (H c Hc). exact HT.
Qed.

Lemma nanmean_missing (T : nat) : pd.nanmean (repeat NaN T) = NaN.
Proof.
  unfold pd.nanmean.
  assert (H : length (filter pd.notna (repeat NaN T)) = 0%nat)
    by (induction T as [| T IH]; [reflexivity | exact IH]).
  rewrite H. reflexivity.
Qed.

Lemma observed_pairs_missing (T : nat) (y : Series) :
  observed_pairs (repeat NaN T) y = [].
Proof.
  unfold observed_pairs. revert y.
  induction T as [| T IH]; intros [| b y]; try reflexivity. simpl. apply IH.
Qed.

Lemma np_cov_no_rows (N : nat) :
  np.cov (repeat [] N) 1 = repeat (repeat NaN N) N.
Proof.
  unfold np.cov.
  assert (Hn : np.nrows (repeat [] N) = 0%nat) by (destruct N; reflexivity).
  rewrite Hn. change (Z.of_nat 0 - 1 <=? 0)%Z with true. cbv iota.
  assert (HX : map np.center (repeat [] N) = repeat [] N).
  { induction N as [| N IH]; [reflexivity |].
    simpl. rewrite IH by (destruct N; reflexivity). reflexivity. }
  rewrite HX.
  assert (He : F.mul (np.inner [] []) (F.div (Fin 1) (Fin 0)) = NaN).
  { unfold np.inner, F.sum. simpl. rewrite eqb_refl. unfold F.inf_times.
    rewrite (ltb_lt 0 1) by lra. simpl. unfold F.inf_times.
    rewrite (ltb_ge 0 0) by lra. reflexivity. }
  transitivity
    (map (fun _ : list float64 => map (fun _ : list float64 => NaN) (repeat [] N))
         (repeat [] N)).
  - apply map_ext_in. intros cj Hj. apply repeat_spec in Hj. subst cj.
    apply map_ext_in. intros ci Hi. apply repeat_spec in Hi. subst ci.
    exact He.
  - rewrite !map_const_repeat, !repeat_length. reflexivity.
Qed.

Lemma cov_short (T N : nat) :
  (T < 2)%nat ->
  pd.cov (repeat (repeat NaN T) N) = repeat (repeat NaN N) N.
Proof.
  intros HT. destruct T as [| [| T]]; [| | lia].
  { unfold pd.cov. simpl repeat.
    assert (H : forallb (forallb pd.notna) (repeat [] N) = true)
      by (induction N as [| N IH]; [reflexivity | exact IH]).
    rewrite H. apply np_cov_no_rows. }
  destruct N as [| N]; [reflexivity |].
  unfold pd.cov. change (forallb (forallb pd.notna) (repeat (repeat NaN 1) (S N)))
    with false. cbv iota.
  rewrite nancorr_frame.
  set (M := repeat (repeat NaN 1) (S N)).
  transitivity (map (fun _ : Series => map (fun _ : Series => NaN) M) M).
  - apply map_ext_in. intros cj _. apply map_ext_in. intros ci Hi.
    apply repeat_spec in Hi. subst ci.
    unfold pairwise_cov. rewrite observed_pairs_missing. reflexivity.
  - unfold M. rewrite !map_const_repeat, !repeat_length. reflexivity.
Qed.

Lemma lt_mul_zero (V : float64) : F.lt (Fin 0) (F.mul V (Fin 0)) = false.
Proof.
  destruct V; simpl; unfold F.inf_times; rewrite ?(ltb_ge 0 0) by lra;
    try reflexivity.
  apply ltb_ge. lra.
Qed.

Lemma stdev_short (N : nat) (weights : list float64) (V : float64) :
  length weights = N ->
  F.lt (Fin 0)
    (Notebook.investment_stdev V
       (np.sqrt (np.inner (map (np.inner weights) (repeat (repeat NaN N) N)) weights)))
  = false.
Proof.
  intros Hw. unfold Notebook.investment_stdev. destruct N as [| N].
  - destruct weights; [| discriminate Hw]. simpl map.
    unfold np.inner, F.sum, np.sqrt. simpl combine. simpl map. simpl fold_left.
    rewrite sqrt_Fin, sqrt_0 by lra. apply lt_mul_zero.
  - rewrite (map_const_repeat' (np.inner weights) NaN) by
      (intros c Hc; apply repeat_spec in Hc; subst c; apply inner_NaN_r, Hw).
    rewrite repeat_length, inner_NaN_l by exact Hw.
    unfold np.sqrt. simpl F.sqrt. rewrite mul_NaN_r. reflexivity.
Qed.

(** C6, as the script behaves.  On a price table with fewer than 2 rows
    the Return Statistics do not fail: every return, every mean return and
    every covariance is NaN.  With as many weights as tickers the run goes
    on to the end and the VaR it reports is NaN. *)
Theorem short_history_statistics (ndtri : float64 -> float64) (T : nat)
  (data : DataFrame) (weights : list float64) (V confidence : float64) :
  (T < 2)%nat -> Forall (fun c => length c = T) data ->
  length weights = length data ->
  let N := length data in
  Notebook.returns data = repeat (repeat NaN T) N /\
  Notebook.mean_returns (Notebook.returns data) = repeat NaN N /\
  Notebook.cov_matrix (Notebook.returns data) = repeat (repeat NaN N) N /\
  exists ws : Notebook.workspace,
    Notebook.run ndtri weights V confidence data = Ok ws /\
    Notebook.ws_value_at_risk ws = NaN.
Proof.
  intros HT Hdata Hw N.
  assert (Hret : Notebook.returns data = repeat (repeat NaN T) N)
    by (apply returns_short; assumption).
  assert (Hcov : Notebook.cov_matrix (Notebook.returns data) = repeat (repeat NaN N) N)
    by (rewrite Hret; apply cov_short, HT).
  split; [exact Hret | split; [| split; [exact Hcov |]]].
  - rewrite Hret. unfold Notebook.mean_returns, pd.mean.
    rewrite (map_const_repeat' pd.nanmean NaN), repeat_length; [reflexivity |].
    intros c Hc. apply repeat_spec in Hc. subst c. apply nanmean_missing.
  - destruct (run_ok ndtri weights V confidence data Hw)
      as (ws & Hrun & _ & _ & _ & _ & Hsd & _ & Hisd & Hpp & Hvar & _).
    exists ws. split; [exact Hrun |].
    rewrite Hvar, Hpp. unfold Notebook.percent_point.
    rewrite ppf_bad_scale; [apply sub_NaN |].
    rewrite Hisd, Hsd, Hcov. apply stdev_short. exact Hw.
Qed.

Lemma short_history_statistics_witness :
  let N := length one_row_prices in
  Notebook.returns one_row_prices = repeat (repeat NaN 1) N /\
  Notebook.mean_returns (Notebook.returns one_row_prices) = repeat NaN N /\
  Notebook.cov_matrix (Notebook.returns one_row_prices) = repeat (repeat NaN N) N /\
  exists ws : Notebook.workspace,
    Notebook.run logit (liftv example_weights) (Fin 1000) (Fin (5 / 100))
      one_row_prices = Ok ws /\
    Notebook.ws_value_at_risk ws = NaN.
Proof.
  apply (short_history_statistics logit 1 one_row_prices (liftv example_weights)
           (Fin 1000) (Fin (5 / 100)));
    [lia | repeat constructor | reflexivity].
Defined.

(** ** Missing prices *)

Lemma pct_from_number_or_missing (prev : float64) (c : Series) :
  price_or_missing prev -> Forall price_or_missing c ->
  Forall number_or_missing (pct_from prev c).
Proof.
  intros Hprev H. revert prev Hprev.
  induction H as [| v c Hv _ IH]; intros prev Hprev; [constructor |].
  simpl. constructor.
  - destruct Hv as [-> | (x & Hx & ->)]; simpl.
    + destruct Hprev as [-> | (y & Hy & ->)]; [left; reflexivity |].
      right. simpl. rewrite (eqb_neq y 0) by lra. eexists. reflexivity.
    + destruct Hprev as [-> | (y & Hy & ->)]; [left; reflexivity |].
      right. simpl. rewrite (eqb_neq y 0) by lra. eexists. reflexivity.
  - apply IH. destruct Hv as [-> | (x & Hx & ->)]; simpl;
      [exact Hprev | right; exists x; auto].
Qed.

Lemma pct_from_gap (prev : float64) (pre gap post : Series) (p q : R) :
  p <> 0 -> Forall (fun v => v = NaN) gap ->
  exists (A : Series) (x : float64) (B : Series),
    pct_from prev (pre ++ Fin p :: gap ++ Fin q :: post)
    = A ++ x :: repeat (Fin 0) (length gap) ++ Fin (q / p - 1) :: B /\
    length A = length pre.
Proof.
  intros Hp Hgap.
  exists (pct_from prev pre),
         (F.sub (F.div (Fin p) (carry prev pre)) (Fin 1)),
         (pct_from (Fin q) post).
  split; [| apply pct_from_length].
  rewrite pct_from_app. f_equal. cbn [pct_from F.isnan]. f_equal.
  rewrite pct_from_app, pct_from_missing, carry_missing by assumption.
  f_equal. cbn [pct_from F.isnan]. f_equal.
  simpl. rewrite (eqb_neq p 0 Hp). reflexivity.
Qed.

Lemma nth_gap (A B : Series) (x y : float64) (k i : nat) :
  (i < k)%nat ->
  nth (length A + 1 + i) (A ++ x :: repeat (Fin 0) k ++ y :: B) NaN = Fin 0.
Proof.
  intros Hi. rewrite <- Nat.add_assoc, app_nth2_plus. cbn [Nat.add nth].
  rewrite app_nth1 by (rewrite repeat_length; exact Hi).
  apply nth_repeat_lt. exact Hi.
Qed.

Lemma nth_after_gap (A B : Series) (x y : float64) (k : nat) :
  nth (length A + 1 + k) (A ++ x :: repeat (Fin 0) k ++ y :: B) NaN = y.
Proof.
  rewrite <- Nat.add_assoc, app_nth2_plus. cbn [Nat.add nth].
  rewrite <- (repeat_length (Fin 0) k) at 1.
  rewrite <- (Nat.add_0_r (length (repeat (Fin 0) k))), app_nth2_plus.
  reflexivity.
Qed.

Lemma returns_number_or_missing (data : DataFrame) :
  Forall (Forall price_or_missing) data ->
  Forall (Forall number_or_missing) (Notebook.returns data).
Proof.
  intros H. unfold Notebook.returns. rewrite pct_change_columns.
  apply Forall_forall. intros r Hr. apply in_map_iff in Hr.
  destruct Hr as (c & <- & Hc). rewrite pct_change_col_from.
  apply pct_from_number_or_missing; [left; reflexivity |].
  rewrite Forall_forall in H. apply H, Hc.
Qed.

(** C10. A price table may have missing entries.  A gap of missing prices
    below an observed price [p] is filled with [p]: the return of every gap
    row is 0, and the return of the next observed price [q] is [q / p - 1].
    Nothing fails, and what is still missing in the returns is left out of
    the statistics: the mean of a column is the arithmetic mean of its
    numbers, and the covariance of two columns is taken over the rows in
    which both are numbers. *)
Theorem missing_prices_forward_fill (data : DataFrame) (j : nat)
  (pre gap post : Series) (p q : R) :
  Forall (Forall price_or_missing) data ->
  (j < length data)%nat ->
  nth j data [] = pre ++ Fin p :: gap ++ Fin q :: post ->
  gap <> [] -> Forall (fun v => v = NaN) gap ->
  let returns := Notebook.returns data in
  let r := nth j returns [] in
  (forall i : nat, (i < length gap)%nat ->
     nth (length pre + 1 + i) r NaN = Fin 0) /\
  nth (length pre + 1 + length gap) r NaN = Fin (q / p - 1) /\
  Forall (Forall number_or_missing) returns /\
  Notebook.mean_returns returns
  = map (fun c => match observed c with
                  | [] => NaN
                  | _ :: _ => Fin (Math.arithmetic_mean (observed c))
                  end) returns /\
  Notebook.cov_matrix returns
  = map (fun cj => map (fun ci => pairwise_cov ci cj) returns) returns.
Proof.
  intros Hdata Hj Hcol Hne Hgap returns r.
  assert (Hin : In (nth j data []) data) by (apply nth_In, Hj).
  assert (Hp : 0 < p).
  { rewrite Forall_forall in Hdata. specialize (Hdata _ Hin).
    rewrite Hcol, Forall_forall in Hdata.
    destruct (Hdata (Fin p)) as [Hnan | (x & Hx & Heq)].
    - apply in_or_app. right. left. reflexivity.
    - discriminate Hnan.
    - injection Heq as ->. exact Hx. }
  assert (Hr : r = pct_from NaN (pre ++ Fin p :: gap ++ Fin q :: post)).
  { subst r returns. unfold Notebook.returns. rewrite pct_change_columns.
    rewrite (nth_map_in _ _ _ []) by exact Hj.
    rewrite pct_change_col_from, Hcol. reflexivity. }
  destruct (pct_from_gap NaN pre gap post p q) as (A & x & B & HA & HlA);
    [lra | exact Hgap |].
  rewrite HA in Hr.
  assert (Hnum : Forall (Forall number_or_missing) returns)
    by (apply returns_number_or_missing, Hdata).
  split; [| split; [| split; [exact Hnum | split]]].
  - intros i Hi. rewrite Hr, <- HlA. apply nth_gap, Hi.
  - rewrite Hr, <- HlA. apply nth_after_gap.
  - unfold Notebook.mean_returns, pd.mean. apply map_ext_in. intros c Hc.
    apply nanmean_observed. rewrite Forall_forall in Hnum. apply Hnum, Hc.
  - subst r returns. unfold Notebook.cov_matrix, Notebook.returns.
    destruct pre as [| v pre].
    + apply (cov_of_returns data (Fin p) (gap ++ Fin q :: post)).
      simpl in Hcol. rewrite <- Hcol. exact Hin.
    + apply (cov_of_returns data v (pre ++ Fin p :: gap ++ Fin q :: post)).
      simpl in Hcol. rewrite <- Hcol. exact Hin.
Qed.

Lemma gap_prices_ok : Forall (Forall price_or_missing) gap_prices.
Proof.
  unfold gap_prices.
  repeat (apply Forall_cons || apply Forall_nil);
    first [left; reflexivity | right; eexists; split; [| reflexivity]; lra].
Qed.

Lemma missing_prices_forward_fill_witness :
  let returns := Notebook.returns gap_prices in
  let r := nth 0 returns [] in
  (forall i : nat, (i < length [NaN; NaN])%nat ->
     nth (length [Fin 100] + 1 + i) r NaN = Fin 0) /\
  nth (length [Fin 100] + 1 + length [NaN; NaN]) r NaN = Fin (121 / 110 - 1) /\
  Forall (Forall number_or_missing) returns /\
  Notebook.mean_returns returns
  = map (fun c => match observed c with
                  | [] => NaN
                  | _ :: _ => Fin (Math.arithmetic_mean (observed c))
                  end) returns /\
  Notebook.cov_matrix returns
  = map (fun cj => map (fun ci => pairwise_cov ci cj) returns) returns.
Proof.
  apply (missing_prices_forward_fill gap_prices 0 [Fin 100] [NaN; NaN] [] 110 121).
  - exact gap_prices_ok.
  - simpl. lia.
  - reflexivity.
  - discriminate.
  - repeat constructor.
Defined.

(** A gap at the top of a column has no price to be filled with: its returns,
    and the return of the first observed price, stay missing. *)
Lemma leading_gap_stays_missing (gap post : Series) (q : R) :
  Forall (fun v => v = NaN) gap ->
  exists B : Series,
    pd.pct_change_col (gap ++ Fin q :: post)
    = repeat NaN (length gap) ++ NaN :: B.
Proof.
  intros Hgap. exists (pct_from (Fin q) post).
  rewrite pct_change_col_from, pct_from_app, carry_missing by exact Hgap.
  f_equal. induction Hgap as [| v gap Hv _ IH]; [reflexivity |].
  subst v. simpl. rewrite IH. reflexivity.
Qed.

(** ** The notebook's own parameters *)

Lemma main_ok (ndtri : float64 -> float64) (data : DataFrame) :
  length data = 4%nat ->
  exists ws : Notebook.workspace, Notebook.main ndtri data = Ok ws.
Proof.
  intros H. unfold Notebook.main.
  destruct (run_ok ndtri Notebook.weights Notebook.portfolio_value
              Notebook.confidence data) as (ws & Hrun & _).
  - rewrite H. reflexivity.
  - exists ws. exact Hrun.
Qed.

(** ** The covariance the script computes is positive semi-definite *)

Lemma big_sum_mul (n m : nat) (f g : nat -> R) :
  Math.big_sum n f * Math.big_sum m g
  = Math.big_sum n (fun i => Math.big_sum m (fun j => f i * g j)).
Proof.
  rewrite <- big_sum_scal_r. apply big_sum_ext. intros i _.
  rewrite big_sum_scal_l. reflexivity.
Qed.

Lemma covariance_entry (rets : list (list R)) (i j : nat) :
  (i < length rets)%nat -> (j < length rets)%nat ->
  Math.entry (covariance_matrix rets) i j
  = Math.sample_covariance (nth i rets []) (nth j rets []).
Proof.
  intros Hi Hj. unfold Math.entry, covariance_matrix.
  rewrite (nth_map_in _ _ _ []) by exact Hj.
  rewrite (nth_map_in _ _ _ []) by exact Hi. reflexivity.
Qed.

Lemma covariance_matrix_square (rets : list (list R)) :
  Math.square (length rets) (covariance_matrix rets).
Proof.
  unfold covariance_matrix. split; [apply length_map |].
  apply Forall_forall. intros c Hc. apply in_map_iff in Hc.
  destruct Hc as (rj & <- & _). apply length_map.
Qed.


(** The quadratic form of the sample covariance is a sum of squares: that of
    the deviations of the weighted returns, row by row. *)
Lemma covariance_quadratic_form (n : nat) (rets : list (list R)) (w : list R) :
  Forall (fun r => length r = n) rets -> length w = length rets ->
  Math.quadratic_form w (covariance_matrix rets)
  = Math.big_sum n (fun t =>
      Rsqr (Math.big_sum (length rets) (fun i =>
              nth i w 0 * (nth t (nth i rets []) 0
                           - Math.arithmetic_mean (nth i rets [])))))
    / (INR n - 1).
Proof.
  intros H Hw. unfold Math.quadratic_form. rewrite Hw.
  set (N := length rets).
  set (a := fun i t => nth i w 0 * (nth t (nth i rets []) 0
                                    - Math.arithmetic_mean (nth i rets []))).
  rewrite Forall_forall in H.
  assert (Hl : forall i, (i < N)%nat -> length (nth i rets []) = n)
    by (intros i Hi; apply H, nth_In, Hi).
  transitivity
    (Math.big_sum N (fun i => Math.big_sum N (fun j =>
       Math.big_sum n (fun t => a i t * a j t * / (INR n - 1))))).
  { apply big_sum_ext. intros i Hi. apply big_sum_ext. intros j Hj.
    rewrite covariance_entry by assumption.
    unfold Math.sample_covariance, Math.co_moment. rewrite (Hl i Hi).
    unfold Rdiv. rewrite <- big_sum_scal_r, <- big_sum_scal_l, <- big_sum_scal_r.
    apply big_sum_ext. intros t _. unfold a. ring. }
  transitivity
    (Math.big_sum n (fun t => Math.big_sum N (fun i => Math.big_sum N (fun j =>
       a i t * a j t * / (INR n - 1))))).
  { rewrite (big_sum_ext N _
      (fun i => Math.big_sum n (fun t => Math.big_sum N (fun j =>
         a i t * a j t * / (INR n - 1)))))
      by (intros i _; apply big_sum_exchange).
    apply big_sum_exchange. }
  unfold Rdiv. rewrite <- big_sum_scal_r. apply big_sum_ext. intros t _.
  unfold Rsqr. rewrite big_sum_mul, <- big_sum_scal_r.
  apply big_sum_ext. intros i _. rewrite <- big_sum_scal_r. reflexivity.
Qed.

Lemma covariance_matrix_psd (n : nat) (rets : list (list R)) :
  (2 <= n)%nat -> Forall (fun r => length r = n) rets ->
  Math.positive_semidefinite (length rets) (covariance_matrix rets).
Proof.
  intros Hn H w Hw. rewrite (covariance_quadratic_form n) by assumption.
  assert (Hpos : 0 < INR n - 1).
  { replace n with (S (S (n - 2))) by lia. rewrite !S_INR.
    pose proof (pos_INR (n - 2)). lra. }
  apply Rmult_le_pos; [| left; apply Rinv_0_lt_compat, Hpos].
  apply big_sum_nonneg. intros t _. apply Rle_0_sqr.
Qed.

(** ** A complete price table, end to end *)

Lemma run_inv (ndtri : float64 -> float64) (weights : list float64)
  (portfolio_value confidence : float64) (data : DataFrame)
  (ws : Notebook.workspace) :
  Notebook.run ndtri weights portfolio_value confidence data = Ok ws ->
  Notebook.port_mean (Notebook.mean_returns (Notebook.returns data)) weights
    = Ok (Notebook.ws_port_mean ws) /\
  Notebook.port_stdev weights (Notebook.cov_matrix (Notebook.returns data))
    = Ok (Notebook.ws_port_stdev ws).
Proof.
  unfold Notebook.run.
  destruct (Notebook.port_mean _ weights) as [pm | e]; [| discriminate].
  cbn [bind].
  destruct (Notebook.port_stdev weights _) as [sd | e]; [| discriminate].
  cbn [bind]. intros H. injection H as <-. split; reflexivity.
Qed.

Lemma port_mean_Fin (m w : list R) :
  length m = length w ->
  Notebook.port_mean (liftv m) (liftv w) = Ok (Fin (Math.dot w m)).
Proof.
  intros H. unfold Notebook.port_mean, pd.dot, liftv.
  rewrite dot_Fin, rdot_big by exact H. do 2 f_equal.
  unfold Math.dot. rewrite H. apply big_sum_ext. intros; ring.
Qed.

Lemma mean_complete (T : nat) (prices : list (list R)) :
  (2 <= T)%nat -> positive_prices T prices ->
  Notebook.mean_returns (Notebook.returns (liftm prices))
  = liftv (map Math.arithmetic_mean (map Math.simple_returns prices)).
Proof.
  intros HT H. rewrite (returns_complete T) by (assumption || lia).
  unfold Notebook.mean_returns, pd.mean, liftv.
  rewrite !map_map. apply map_ext_in. intros p Hp.
  apply nanmean_complete. intros Hnil.
  apply (f_equal (@length R)) in Hnil. rewrite simple_returns_length in Hnil.
  unfold positive_prices in H. rewrite Forall_forall in H.
  destruct (H p Hp) as [Hl _]. rewrite Hl in Hnil. simpl in Hnil. lia.
Qed.

Lemma simple_returns_lengths (T : nat) (prices : list (list R)) :
  positive_prices T prices ->
  Forall (fun r => length r = (T - 1)%nat) (map Math.simple_returns prices).
Proof.
  intros H. apply Forall_forall. intros r Hr. apply in_map_iff in Hr.
  destruct Hr as (p & <- & Hp). rewrite simple_returns_length.
  unfold positive_prices in H. rewrite Forall_forall in H.
  destruct (H p Hp) as [-> _]. reflexivity.
Qed.

Lemma cov_complete_finite (T : nat) (prices : list (list R)) :
  (3 <= T)%nat -> positive_prices T prices ->
  Notebook.cov_matrix (Notebook.returns (liftm prices))
  = liftm (covariance_matrix (map Math.simple_returns prices)).
Proof.
  intros HT H. rewrite (cov_complete T) by (assumption || lia).
  unfold covariance_matrix, liftm, liftv. rewrite !map_map.
  assert (Hl := simple_returns_lengths T prices H).
  rewrite Forall_forall in Hl.
  apply map_ext_in. intros pj Hj. rewrite !map_map.
  apply map_ext_in. intros pi Hi.
  unfold Math.sample_covariance.
  rewrite (Hl (Math.simple_returns pi)) by (apply in_map, Hi).
  apply div_Fin.
  replace (T - 1)%nat with (S (S (T - 3))) by lia.
  rewrite !S_INR. pose proof (pos_INR (T - 3)). lra.
Qed.

(** On a price table with all prices positive and at least 3 rows, and with
    as many weights as tickers, the run completes with numbers: the portfolio
    variance is the quadratic form of the sample covariance matrix of the
    returns, which is not negative, and the standard deviations are its
    square root and [V] times it. *)
Lemma run_complete (ndtri : float64 -> float64) (T : nat)
  (prices : list (list R)) (w : list R) (V : R) (confidence : float64) :
  (3 <= T)%nat -> positive_prices T prices -> length w = length prices ->
  let rets := map Math.simple_returns prices in
  let q := Math.quadratic_form w (covariance_matrix rets) in
  let m := Math.dot w (map Math.arithmetic_mean rets) in
  0 <= q /\
  exists ws : Notebook.workspace,
    Notebook.run ndtri (liftv w) (Fin V) confidence (liftm prices) = Ok ws /\
    Notebook.ws_port_mean ws = Fin m /\
    Notebook.ws_investment_mean ws = Fin ((1 + m) * V) /\
    Notebook.ws_port_stdev ws = Fin (sqrt q) /\
    Notebook.ws_investment_stdev ws = Fin (V * sqrt q).
Proof.
  intros HT Hp Hw rets q m.
  assert (Hlen : length rets = length w)
    by (unfold rets; rewrite length_map; symmetry; exact Hw).
  assert (Hq : 0 <= q).
  { unfold q. rewrite <- Hlen in *.
    apply (covariance_matrix_psd (T - 1));
      [lia | apply simple_returns_lengths, Hp | symmetry; exact Hlen]. }
  split; [exact Hq |].
  destruct (run_ok ndtri (liftv w) (Fin V) confidence (liftm prices))
    as (ws & Hrun & _ & _ & _ & _ & _ & Him & Hisd & _).
  { unfold liftv, liftm. rewrite !length_map. exact Hw. }
  destruct (run_inv _ _ _ _ _ _ Hrun) as [Hpm Hsd].
  rewrite (mean_complete T) in Hpm by (assumption || lia).
  rewrite port_mean_Fin in Hpm by (unfold rets in Hlen; rewrite length_map; exact Hlen).
  rewrite (cov_complete_finite T) in Hsd by assumption.
  rewrite (port_stdev_nonneg (length w)) in Hsd;
    [| reflexivity | rewrite <- Hlen; apply covariance_matrix_square | exact Hq].
  injection Hpm as Hpm. injection Hsd as Hsd.
  exists ws. rewrite Him, Hisd, <- Hpm, <- Hsd.
  repeat split; [exact Hrun].
Qed.

(** * Further properties of the script *)

(** ** When the run raises *)

(** X1. The only exception of the run is the shape check of the products:
    the run completes exactly when there are as many weights as the price
    frame has columns, and raises the shape mismatch otherwise, whatever the
    prices are (missing, zero, too few rows). *)
Theorem run_completes_iff_shapes_agree (ndtri : float64 -> float64)
  (weights : list float64) (portfolio_value confidence : float64)
  (data : DataFrame) :
  ((exists ws : Notebook.workspace,
      Notebook.run ndtri weights portfolio_value confidence data = Ok ws)
   <-> length weights = length data) /\
  (Notebook.run ndtri weights portfolio_value confidence data = Raise ShapeMismatch
   <-> length weights <> length data).
Proof.
  destruct (Nat.eq_dec (length weights) (length data)) as [Heq | Hne].
  - destruct (run_ok ndtri weights portfolio_value confidence data Heq)
      as (ws & Hrun & _).
    split; split; intros H; try assumption.
    + exists ws. exact Hrun.
    + rewrite Hrun in H. discriminate H.
    + contradiction.
  - pose proof (run_shape_mismatch ndtri weights portfolio_value confidence
                  data Hne) as Hrun.
    split; split; intros H; try assumption.
    + destruct H as [ws H]. rewrite Hrun in H. discriminate H.
    + contradiction.
Qed.

(** ** Shape of the returns *)

Lemma pct_from_first (c : Series) :
  nth 0 (pct_from NaN c) NaN = NaN.
Proof.
  destruct c as [| v c]; [reflexivity |].
  destruct (pct_from_head v c) as [r ->]. reflexivity.
Qed.

(** X2. The frame of returns has the shape of the frame of prices, and its
    first row is missing in every column. *)
Theorem returns_shape (data : DataFrame) :
  length (Notebook.returns data) = length data /\
  (forall j : nat,
     length (nth j (Notebook.returns data) []) = length (nth j data [])) /\
  (forall j : nat, nth 0 (nth j (Notebook.returns data) []) NaN = NaN).
Proof.
  unfold Notebook.returns. rewrite pct_change_columns.
  split; [apply length_map | split]; intros j.
  - destruct (Nat.lt_ge_cases j (length data)) as [Hj | Hj].
    + rewrite (nth_map_in _ _ _ []) by exact Hj. apply pct_change_col_length.
    + rewrite !nth_overflow by (rewrite ?length_map; exact Hj). reflexivity.
  - destruct (Nat.lt_ge_cases j (length data)) as [Hj | Hj].
    + rewrite (nth_map_in _ _ _ []) by exact Hj.
      rewrite pct_change_col_from. apply pct_from_first.
    + replace (nth j (map pd.pct_change_col data) []) with (@nil float64)
        by (symmetry; apply nth_overflow; rewrite length_map; exact Hj).
      reflexivity.
Qed.

(** ** Forward filling *)

Lemma pad_idempotent (val : float64) (c : Series) :
  pd.pad val (pd.pad val c) = pd.pad val c.
Proof.
  revert val. induction c as [| v c IH]; intros val; [reflexivity |].
  simpl. destruct (F.isnan v) eqn:E; simpl.
  - destruct (F.isnan val); rewrite IH; reflexivity.
  - rewrite E, IH. reflexivity.
Qed.

Lemma returns_fillna_pad (data : DataFrame) :
  Notebook.returns (pd.fillna_pad data) = Notebook.returns data.
Proof.
  unfold Notebook.returns. rewrite !pct_change_columns.
  unfold pd.fillna_pad. rewrite map_map. apply map_ext. intros c.
  unfold pd.pct_change_col. rewrite pad_idempotent. reflexivity.
Qed.

Lemma run_returns (ndtri : float64 -> float64) (weights : list float64)
  (portfolio_value confidence : float64) (data data' : DataFrame) :
  Notebook.returns data' = Notebook.returns data ->
  Notebook.run ndtri weights portfolio_value confidence data'
  = Notebook.run ndtri weights portfolio_value confidence data.
Proof. intros H. unfold Notebook.run. rewrite H. reflexivity. Qed.

(** X3. A missing price counts as an unchanged price: the run on a price
    frame is the run on the frame with every gap filled with the last
    price above it, result for result and exception for exception. *)
Theorem run_forward_fill_invariant (ndtri : float64 -> float64)
  (weights : list float64) (portfolio_value confidence : float64)
  (data : DataFrame) :
  Notebook.run ndtri weights portfolio_value confidence (pd.fillna_pad data)
  = Notebook.run ndtri weights portfolio_value confidence data.
Proof. apply run_returns, returns_fillna_pad. Qed.

(** ** Symmetry of the covariance frame *)

Lemma mul_comm (a b : float64) : F.mul a b = F.mul b a.
Proof. destruct a, b; simpl; try reflexivity. f_equal. ring. Qed.

Lemma inner_comm (a b : list float64) : np.inner a b = np.inner b a.
Proof.
  unfold np.inner. f_equal. revert b.
  induction a as [| x a IH]; intros [| y b]; try reflexivity.
  simpl. rewrite IH, mul_comm. reflexivity.
Qed.

Lemma nth_symmetric_frame {A : Type} (g : A -> A -> float64) (X : list A)
  (i j : nat) :
  (forall x y : A, g x y = g y x) ->
  nth i (nth j (map (fun cj => map (fun ci => g ci cj) X) X) []) NaN
  = nth j (nth i (map (fun cj => map (fun ci => g ci cj) X) X) []) NaN.
Proof.
  intros Hg.
  assert (H : forall a b : nat,
             nth a (nth b (map (fun cj => map (fun ci => g ci cj) X) X) []) NaN
             = match nth_error X a, nth_error X b with
               | Some xa, Some xb => g xa xb
               | _, _ => NaN
               end).
  { intros a b.
    destruct (nth_error X b) as [xb |] eqn:Eb.
    - assert (Hb : (b < length X)%nat) by (apply nth_error_Some; congruence).
      rewrite (nth_map_in _ _ _ xb) by exact Hb.
      rewrite (nth_error_nth _ _ _ Eb).
      destruct (nth_error X a) as [xa |] eqn:Ea.
      + assert (Ha : (a < length X)%nat) by (apply nth_error_Some; congruence).
        rewrite (nth_map_in _ _ _ xa) by exact Ha.
        rewrite (nth_error_nth _ _ _ Ea). reflexivity.
      + apply nth_overflow. rewrite length_map. apply nth_error_None, Ea.
    - replace (nth b (map (fun cj => map (fun ci => g ci cj) X) X) [])
        with (@nil float64).
      + destruct (nth_error X a) as [xa |]; destruct a as [| a']; reflexivity.
      + symmetry. apply nth_overflow. rewrite length_map.
        apply nth_error_None, Eb. }
  rewrite (H i j), (H j i).
  destruct (nth_error X i), (nth_error X j); try reflexivity. apply Hg.
Qed.

(** X4. The covariance frame is symmetric, whatever the returns are: the
    entry of row [i] and column [j] is the entry of row [j] and column [i],
    missing values and infinities included. *)
Theorem cov_matrix_symmetric (returns : DataFrame) (i j : nat) :
  nth i (nth j (Notebook.cov_matrix returns) []) NaN
  = nth j (nth i (Notebook.cov_matrix returns) []) NaN.
Proof.
  unfold Notebook.cov_matrix, pd.cov.
  destruct (forallb (forallb pd.notna) returns).
  - unfold np.cov.
    apply (nth_symmetric_frame
             (fun ci cj => F.mul (np.inner ci cj) _) (map np.center returns)).
    intros x y. rewrite inner_comm. reflexivity.
  - rewrite nancorr_frame. apply nth_symmetric_frame, pairwise_cov_sym.
Qed.

(** ** Welford's pass and the sample covariance *)

(** X5. The single pass of [nancorr] computes the textbook sample
    covariance: on two columns of [n >= 2] numbers it returns the sum of the
    products of the deviations from the means divided by [n - 1]; on fewer
    than 2 rows it returns NaN. *)
Theorem nancorr_is_sample_covariance (x y : list R) :
  length x = length y ->
  ((2 <= length x)%nat ->
   pd.nancorr_entry true 1 (liftv x) (liftv y) = Fin (Math.sample_covariance x y)) /\
  ((length x < 2)%nat ->
   pd.nancorr_entry true 1 (liftv x) (liftv y) = NaN).
Proof.
  intros Hl. rewrite nancorr_entry_pairs. unfold pairwise_cov.
  rewrite observed_pairs_liftv.
  destruct x as [| a x]; destruct y as [| b y]; try discriminate Hl.
  { split; intros H; [simpl in H; lia | reflexivity]. }
  assert (Hc : cov_of_pairs (combine (a :: x) (b :: y))
               = F.div (Fin (Math.co_moment (a :: x) (b :: y)))
                       (Fin (INR (length (a :: x)) - 1))).
  { transitivity
      (F.div (Fin (Math.co_moment (map fst (combine (a :: x) (b :: y)))
                                  (map snd (combine (a :: x) (b :: y)))))
             (Fin (INR (length (combine (a :: x) (b :: y))) - 1)));
      [reflexivity |].
    rewrite map_fst_combine, map_snd_combine, length_combine, <- Hl, Nat.min_id
      by exact Hl.
    reflexivity. }
  rewrite Hc. split; intros H.
  - unfold Math.sample_covariance. apply div_Fin.
    destruct x as [| a' x]; [simpl in H; lia |].
    change (length (a :: a' :: x)) with (S (S (length x))).
    rewrite !S_INR. pose proof (pos_INR (length x)). lra.
  - destruct x as [| a' x]; [| simpl in H; lia].
    destruct y as [| b' y]; [| discriminate Hl].
    rewrite co_moment_single. simpl.
    replace (1 - 1) with 0 by ring. rewrite eqb_refl.
    unfold F.inf_times. rewrite (ltb_ge 0 0) by lra. reflexivity.
Qed.

Lemma nancorr_is_sample_covariance_witness :
  ((2 <= length [1; 2; 3])%nat ->
   pd.nancorr_entry true 1 (liftv [1; 2; 3]) (liftv [2; 4; 7])
   = Fin (Math.sample_covariance [1; 2; 3] [2; 4; 7])) /\
  ((length [1; 2; 3] < 2)%nat ->
   pd.nancorr_entry true 1 (liftv [1; 2; 3]) (liftv [2; 4; 7]) = NaN).
Proof. apply (nancorr_is_sample_covariance [1; 2; 3] [2; 4; 7]). reflexivity. Defined.

Lemma co_moment_self_nonneg (x : list R) : 0 <= Math.co_moment x x.
Proof.
  unfold Math.co_moment. apply big_sum_nonneg. intros t _.
  apply Rle_0_sqr.
Qed.

(** X6. What the pass keeps: after any rows of numbers the state holds
    their count, the arithmetic means of the two columns, and the three sums
    of products of deviations; the two sums of squares are never negative. *)
Theorem welford_state_after (l : list (R * R)) :
  l <> [] ->
  let s := fold_left pd.welford_step (map lift_pair l) pd.welford_init in
  let xs := map fst l in
  let ys := map snd l in
  pd.nobs s = length l /\
  pd.meanx s = Fin (Math.arithmetic_mean xs) /\
  pd.meany s = Fin (Math.arithmetic_mean ys) /\
  pd.ssqdm_x s = Fin (Math.co_moment xs xs) /\
  pd.ssqdm_y s = Fin (Math.co_moment ys ys) /\
  pd.covxy s = Fin (Math.co_moment xs ys) /\
  0 <= Math.co_moment xs xs /\ 0 <= Math.co_moment ys ys.
Proof.
  intros Hl s xs ys.
  destruct (welford_inv_fold l)
    as (mx & my & sx & sy & c & Hs & Hx & Hy & Hsx & Hsy & Hc).
  fold s in Hs. rewrite Hs.
  cbn [pd.nobs pd.meanx pd.meany pd.ssqdm_x pd.ssqdm_y pd.covxy].
  assert (Hn : (0 < length l)%nat) by (destruct l; [contradiction | simpl; lia]).
  assert (Hn' : INR (length l) <> 0) by (apply not_0_INR; lia).
  assert (Hlx : length xs = length l) by apply length_map.
  assert (Hly : length ys = length l) by apply length_map.
  assert (Hmx : mx = Math.arithmetic_mean xs).
  { rewrite arithmetic_mean_rsum, Hlx. fold xs in Hx. rewrite <- Hx.
    field. exact Hn'. }
  assert (Hmy : my = Math.arithmetic_mean ys).
  { rewrite arithmetic_mean_rsum, Hly. fold ys in Hy. rewrite <- Hy.
    field. exact Hn'. }
  assert (Hdot : forall f g : R * R -> R,
             rdot (map f l) (map g l) = rsum (map (fun p => f p * g p) l)).
  { intros f g. unfold rdot. rewrite combine_map, map_map. reflexivity. }
  fold xs in Hx. fold ys in Hy.
  repeat split; try (apply co_moment_self_nonneg); try reflexivity;
    try (f_equal; assumption).
  - f_equal. rewrite co_moment_sums by (rewrite ?Hlx; auto).
    unfold xs. rewrite Hdot, length_map, Hsx. fold xs. rewrite <- Hx.
    field. exact Hn'.
  - f_equal. rewrite co_moment_sums by (rewrite ?Hly; auto).
    unfold ys. rewrite Hdot, length_map, Hsy. fold ys. rewrite <- Hy.
    field. exact Hn'.
  - f_equal. rewrite co_moment_sums by (rewrite ?Hlx, ?Hly; auto).
    unfold xs at 1. unfold ys at 1. rewrite Hdot, Hlx, Hc, <- Hx, <- Hy.
    field. exact Hn'.
Qed.

Lemma welford_state_after_witness :
  let l := [(1, 2); (2, 4); (3, 7)] in
  let s := fold_left pd.welford_step (map lift_pair l) pd.welford_init in
  let xs := map fst l in
  let ys := map snd l in
  pd.nobs s = length l /\
  pd.meanx s = Fin (Math.arithmetic_mean xs) /\
  pd.meany s = Fin (Math.arithmetic_mean ys) /\
  pd.ssqdm_x s = Fin (Math.co_moment xs xs) /\
  pd.ssqdm_y s = Fin (Math.co_moment ys ys) /\
  pd.covxy s = Fin (Math.co_moment xs ys) /\
  0 <= Math.co_moment xs xs /\ 0 <= Math.co_moment ys ys.
Proof. apply (welford_state_after [(1, 2); (2, 4); (3, 7)]). discriminate. Defined.

(** X7. A variance on the diagonal of the covariance frame is never
    negative: the covariance of a column with itself is NaN (fewer than two
    numbers) or a number that is not negative. *)
Theorem nancorr_variance_nonneg (x : Series) :
  pd.nancorr_entry true 1 x x = NaN \/
  exists v : R, 0 <= v /\ pd.nancorr_entry true 1 x x = Fin v.
Proof.
  rewrite nancorr_entry_pairs. unfold pairwise_cov.
  assert (Hd : map snd (observed_pairs x x) = map fst (observed_pairs x x)).
  { unfold observed_pairs. induction x as [| v x IH]; [reflexivity |].
    simpl. rewrite !map_app, IH. f_equal. destruct v; reflexivity. }
  destruct (observed_pairs x x) as [| p l]; [left; reflexivity |].
  assert (Hc : cov_of_pairs (p :: l)
               = F.div (Fin (Math.co_moment (map fst (p :: l)) (map fst (p :: l))))
                       (Fin (INR (length (p :: l)) - 1)))
    by (rewrite <- Hd at 2; reflexivity).
  rewrite Hc. destruct l as [| p' l].
  - left. simpl map. rewrite co_moment_single. simpl.
    replace (1 - 1) with 0 by ring. rewrite eqb_refl.
    unfold F.inf_times. rewrite (ltb_ge 0 0) by lra. reflexivity.
  - right.
    assert (Hn : 0 < INR (length (p :: p' :: l)) - 1).
    { change (length (p :: p' :: l)) with (S (S (length l))).
      rewrite !S_INR. pose proof (pos_INR (length l)). lra. }
    eexists. split; [| apply div_Fin; lra].
    apply Rmult_le_pos; [apply co_moment_self_nonneg |].
    left. apply Rinv_0_lt_compat, Hn.
Qed.

(** ** A complete price table: the covariance and the value at risk *)



Lemma run_fields (ndtri : float64 -> float64) (weights : list float64)
  (portfolio_value confidence : float64) (data : DataFrame)
  (ws : Notebook.workspace) :
  Notebook.run ndtri weights portfolio_value confidence data = Ok ws ->
  Notebook.ws_investment_mean ws
    = Notebook.investment_mean (Notebook.ws_port_mean ws) portfolio_value /\
  Notebook.ws_investment_stdev ws
    = Notebook.investment_stdev portfolio_value (Notebook.ws_port_stdev ws) /\
  Notebook.ws_percent_point ws
    = Notebook.percent_point ndtri confidence
        (Notebook.ws_investment_mean ws) (Notebook.ws_investment_stdev ws) /\
  Notebook.ws_value_at_risk ws
    = Notebook.value_at_risk portfolio_value (Notebook.ws_percent_point ws) /\
  Notebook.ws_value_at_risks ws
    = Notebook.value_at_risks (Notebook.ws_value_at_risk ws).
Proof.
  unfold Notebook.run.
  destruct (Notebook.port_mean _ weights) as [pm | e]; [| discriminate].
  cbn [bind].
  destruct (Notebook.port_stdev weights _) as [sd | e]; [| discriminate].
  cbn [bind]. intros H. injection H as <-. cbn. repeat split.
Qed.

(** X9. The value at risk in closed form.  On a price table with all prices
    positive and at least 3 rows, with as many weights as tickers, a
    positive notional [V], a confidence level [alpha] in (0, 1) whose
    standard quantile is [z], and a portfolio variance [q > 0], the run
    reports the VaR [- V * (m + z * sqrt q)], [m] being the portfolio mean
    return: the VaR is proportional to the notional. *)
Theorem value_at_risk_closed_form (ndtri : float64 -> float64) (T : nat)
  (prices : list (list R)) (w : list R) (V alpha z : R) :
  (3 <= T)%nat -> positive_prices T prices -> length w = length prices ->
  0 < V -> 0 < alpha < 1 -> ndtri (Fin alpha) = Fin z ->
  let rets := map Math.simple_returns prices in
  let q := Math.quadratic_form w (covariance_matrix rets) in
  let m := Math.dot w (map Math.arithmetic_mean rets) in
  0 < q ->
  exists ws : Notebook.workspace,
    Notebook.run ndtri (liftv w) (Fin V) (Fin alpha) (liftm prices) = Ok ws /\
    Notebook.ws_value_at_risk ws = Fin (- V * (m + z * sqrt q)).
Proof.
  intros HT Hp Hw HV Ha Hz rets q m Hq.
  destruct (run_complete ndtri T prices w V (Fin alpha) HT Hp Hw)
    as (_ & ws & Hrun & _ & Him & _ & Hisd).
  fold rets in Him, Hisd. fold m in Him. fold q in Hisd.
  destruct (run_fields _ _ _ _ _ _ Hrun) as (_ & _ & Hpp & Hvar & _).
  exists ws. split; [exact Hrun |].
  rewrite Hvar, Hpp, Him, Hisd. unfold Notebook.percent_point.
  assert (Hs : 0 < V * sqrt q) by (apply Rmult_lt_0_compat, sqrt_lt_R0; assumption).
  rewrite ppf_interior, Hz by assumption.
  simpl. f_equal. ring.
Qed.


Lemma example_variance_positive :
  0 < Math.quadratic_form example_weights
        (covariance_matrix (map Math.simple_returns example_prices)).
Proof.
  unfold Math.quadratic_form, covariance_matrix, Math.entry,
    Math.sample_covariance, Math.co_moment, Math.arithmetic_mean,
    Math.simple_returns, example_weights, example_prices.
  simpl. lra.
Qed.

Lemma value_at_risk_closed_form_witness :
  let rets := map Math.simple_returns example_prices in
  let q := Math.quadratic_form example_weights (covariance_matrix rets) in
  let m := Math.dot example_weights (map Math.arithmetic_mean rets) in
  let z := ln (5 / 100 / (1 - 5 / 100)) in
  exists ws : Notebook.workspace,
    Notebook.run logit (liftv example_weights) (Fin 1000) (Fin (5 / 100))
      (liftm example_prices) = Ok ws /\
    Notebook.ws_value_at_risk ws = Fin (- 1000 * (m + z * sqrt q)).
Proof.
  apply (value_at_risk_closed_form logit 3 example_prices example_weights
           1000 (5 / 100) (ln (5 / 100 / (1 - 5 / 100))));
    [lia | exact example_prices_positive | reflexivity | lra | lra
    | reflexivity | exact example_variance_positive].
Defined.




(** ** A ticker without prices *)

Lemma add_NaN_r (a : float64) : F.add a NaN = NaN.
Proof. destruct a; reflexivity. Qed.

Lemma sum_with_NaN (l : list float64) (acc : float64) :
  In NaN l -> fold_left F.add l acc = NaN.
Proof.
  revert acc. induction l as [| v l IH]; intros acc H; [contradiction |].
  simpl. destruct H as [-> | H].
  - rewrite add_NaN_r. apply fold_add_NaN.
  - apply IH, H.
Qed.

Lemma inner_with_NaN (a b : list float64) (j : nat) :
  length a = length b -> (j < length a)%nat -> nth j a NaN = NaN ->
  np.inner a b = NaN.
Proof.
  intros Hl Hj Ha. unfold np.inner, F.sum. apply sum_with_NaN.
  assert (Hc : (j < length (combine a b))%nat)
    by (rewrite length_combine, <- Hl, Nat.min_id; exact Hj).
  replace NaN
    with (nth j (map (fun p => F.mul (fst p) (snd p)) (combine a b)) NaN) at 1.
  - apply nth_In. rewrite length_map. exact Hc.
  - rewrite (nth_map_in _ _ _ (NaN, NaN)) by exact Hc.
    rewrite combine_nth by exact Hl. cbn [fst snd]. rewrite Ha. reflexivity.
Qed.

Lemma pct_from_all_missing (T : nat) :
  pct_from NaN (repeat NaN T) = repeat NaN T.
Proof. induction T as [| T IH]; [reflexivity | simpl; rewrite IH; reflexivity]. Qed.

Lemma ppf_bad_loc (ndtri : float64 -> float64) (q scale : float64) :
  norm.ppf ndtri q NaN scale = NaN.
Proof. unfold norm.ppf. simpl. rewrite !andb_false_r. reflexivity. Qed.

(** X11. One ticker without a single price spoils the result without a
    failure: if a column of the price frame is missing from top to bottom
    (and there are as many weights as tickers), the run completes, and the
    portfolio mean return and the VaR it reports are NaN. *)
Theorem missing_ticker_gives_nan (ndtri : float64 -> float64)
  (weights : list float64) (portfolio_value confidence : float64)
  (data : DataFrame) (j T : nat) :
  length weights = length data -> (j < length data)%nat ->
  nth j data [] = repeat NaN T ->
  exists ws : Notebook.workspace,
    Notebook.run ndtri weights portfolio_value confidence data = Ok ws /\
    nth j (Notebook.ws_mean_returns ws) (Fin 0) = NaN /\
    Notebook.ws_port_mean ws = NaN /\
    Notebook.ws_value_at_risk ws = NaN.
Proof.
  intros Hw Hj Hcol.
  destruct (run_ok ndtri weights portfolio_value confidence data Hw)
    as (ws & Hrun & _ & Hmr & Hpm & _ & _ & Him & _ & Hpp & Hvar & _).
  assert (Hlen : length (Notebook.mean_returns (Notebook.returns data)) = length data).
  { unfold Notebook.mean_returns, pd.mean, Notebook.returns.
    rewrite pct_change_columns, !length_map. reflexivity. }
  assert (Hm : forall d, nth j (Notebook.mean_returns (Notebook.returns data)) d = NaN).
  { intros d. unfold Notebook.mean_returns, pd.mean, Notebook.returns.
    rewrite pct_change_columns, map_map.
    rewrite (nth_map_in _ _ _ []) by exact Hj.
    rewrite Hcol, pct_change_col_from, pct_from_all_missing.
    apply nanmean_missing. }
  assert (Hpm' : Notebook.ws_port_mean ws = NaN).
  { rewrite Hpm. apply (inner_with_NaN _ _ j); rewrite ?Hlen; auto. }
  exists ws. split; [exact Hrun | split; [| split; [exact Hpm' |]]].
  - rewrite Hmr. apply Hm.
  - rewrite Hvar, Hpp, Him, Hpm'. unfold Notebook.percent_point.
    replace (Notebook.investment_mean NaN portfolio_value) with NaN
      by (destruct portfolio_value; reflexivity).
    rewrite ppf_bad_loc. apply sub_NaN.
Qed.

Lemma missing_ticker_gives_nan_witness :
  exists ws : Notebook.workspace,
    Notebook.run logit (liftv example_weights) (Fin 1000) (Fin (5 / 100))
      [[Fin 100; Fin 110; Fin 121]; [NaN; NaN; NaN]] = Ok ws /\
    nth 1 (Notebook.ws_mean_returns ws) (Fin 0) = NaN /\
    Notebook.ws_port_mean ws = NaN /\
    Notebook.ws_value_at_risk ws = NaN.
Proof.
  apply (missing_ticker_gives_nan logit (liftv example_weights) (Fin 1000)
           (Fin (5 / 100)) [[Fin 100; Fin 110; Fin 121]; [NaN; NaN; NaN]] 1 3);
    [reflexivity | simpl; lia | reflexivity].
Defined.

(** ** A price of zero *)

(** X12. A price of zero is not refused.  Between two positive prices [p]
    and [q] it makes the return of its own row -1 and the return of the next
    row plus infinity. *)
Theorem zero_price_returns (pre post : Series) (p q : R) :
  0 < p -> 0 < q ->
  let r := pd.pct_change_col (pre ++ Fin p :: Fin 0 :: Fin q :: post) in
  nth (length pre + 1) r NaN = Fin (- 1) /\
  nth (length pre + 2) r NaN = PInf.
Proof.
  intros Hp Hq r.
  assert (Hr : r = pct_from NaN pre
                   ++ F.sub (F.div (Fin p) (carry NaN pre)) (Fin 1)
                   :: Fin (- 1) :: PInf :: pct_from (Fin q) post).
  { unfold r. rewrite pct_change_col_from, pct_from_app. f_equal.
    cbn [pct_from F.isnan]. f_equal. f_equal.
    - simpl. rewrite (eqb_neq p 0) by lra. simpl. f_equal. field. lra.
    - f_equal. simpl. rewrite eqb_refl. unfold F.inf_times.
      rewrite (ltb_lt 0 q) by exact Hq. reflexivity. }
  rewrite Hr, <- (pct_from_length NaN pre).
  split; rewrite app_nth2_plus; reflexivity.
Qed.

Lemma zero_price_returns_witness :
  let r := pd.pct_change_col ([Fin 90] ++ Fin 100 :: Fin 0 :: Fin 50 :: []) in
  nth (length [Fin 90] + 1) r NaN = Fin (- 1) /\
  nth (length [Fin 90] + 2) r NaN = PInf.
Proof. apply (zero_price_returns [Fin 90] [] 100 50); lra. Defined.





(** ** Units of the prices *)




(** ** The scaled sequence *)

(** X15. The sequence over the horizon starts at the one-day VaR, and it
    grows with the day when the VaR is positive and falls when it is
    negative: for days [d1 < d2] the entries are [x * sqrt d1] and
    [x * sqrt d2], in that order or the reverse by the sign of [x]. *)
Theorem horizon_sequence_order (x : R) (d1 d2 : nat) :
  (1 <= d1)%nat -> (d1 < d2)%nat -> (d2 <= 30)%nat ->
  nth 0 (Notebook.value_at_risks (Fin x)) NaN = Fin x /\
  exists a b : R,
    nth (d1 - 1) (Notebook.value_at_risks (Fin x)) NaN = Fin a /\
    nth (d2 - 1) (Notebook.value_at_risks (Fin x)) NaN = Fin b /\
    (0 < x -> a < b) /\ (x < 0 -> b < a) /\ (x = 0 -> a = b).
Proof.
  intros H1 H12 H2. split.
  - change (nth 0 (Notebook.value_at_risks (Fin x)) NaN)
      with (nth (1 - 1) (Notebook.value_at_risks (Fin x)) NaN).
    rewrite (value_at_risks_nth (Fin x) 1) by lia.
    simpl. rewrite sqrt_1. f_equal. ring.
  - exists (x * sqrt (INR d1)), (x * sqrt (INR d2)).
    rewrite !value_at_risks_nth by lia.
    assert (Hs : sqrt (INR d1) < sqrt (INR d2)).
    { apply sqrt_lt_1; [apply pos_INR | apply pos_INR | apply lt_INR, H12]. }
    repeat split; intros Hx; [nra | nra | subst x; ring].
Qed.

Lemma horizon_sequence_order_witness :
  nth 0 (Notebook.value_at_risks (Fin 28)) NaN = Fin 28 /\
  exists a b : R,
    nth (1 - 1) (Notebook.value_at_risks (Fin 28)) NaN = Fin a /\
    nth (30 - 1) (Notebook.value_at_risks (Fin 28)) NaN = Fin b /\
    (0 < 28 -> a < b) /\ (28 < 0 -> b < a) /\ (28 = 0 -> a = b).
Proof. apply (horizon_sequence_order 28 1 30); lia. Defined.

(** ** How the value at risk answers to its inputs *)




(** ** Where returns are missing *)

Lemma pct_from_missing_iff (prev : float64) (c : Series) (t : nat) :
  price_or_missing prev -> Forall price_or_missing c -> (t < length c)%nat ->
  (nth t (pct_from prev c) NaN = NaN
   <-> prev = NaN /\ forall s : nat, (s < t)%nat -> nth s c NaN = NaN).
Proof.
  intros Hprev H. revert prev Hprev t.
  induction H as [| v c Hv _ IH]; intros prev Hprev t Ht; [simpl in Ht; lia |].
  destruct t as [| t].
  - cbn [pct_from nth]. split.
    + intros Hn. split; [| intros s Hs; lia].
      destruct Hprev as [-> | (y & Hy & ->)]; [reflexivity |].
      destruct Hv as [-> | (x & Hx & ->)]; simpl in Hn;
        rewrite (eqb_neq y 0) in Hn by lra; discriminate Hn.
    + intros [-> _]. destruct v; reflexivity.
  - cbn [pct_from nth].
    assert (Hd : price_or_missing (if F.isnan v then prev else v)).
    { destruct Hv as [-> | (x & Hx & ->)]; simpl;
        [exact Hprev | right; exists x; auto]. }
    rewrite (IH _ Hd t) by (simpl in Ht; lia). split.
    + intros [Hnan Hall].
      destruct Hv as [-> | (x & Hx & ->)]; simpl in Hnan; [| discriminate Hnan].
      split; [exact Hnan |]. intros [| s] Hs; [reflexivity |].
      apply Hall. lia.
    + intros [-> Hall].
      assert (Hv0 : v = NaN) by (apply (Hall 0%nat); lia).
      subst v. split; [reflexivity |]. intros s Hs. apply (Hall (S s)). lia.
Qed.

(** X17. Where the returns of a column of positive or missing prices are
    missing: the return of row [t] is NaN exactly when no price was observed
    in any row above it.  So it is missing in the first row and through the
    first observed price, and in no row below. *)
Theorem return_missing_iff (c : Series) (t : nat) :
  Forall price_or_missing c -> (t < length c)%nat ->
  (nth t (pd.pct_change_col c) NaN = NaN
   <-> forall s : nat, (s < t)%nat -> nth s c NaN = NaN).
Proof.
  intros Hc Ht. rewrite pct_change_col_from.
  rewrite (pct_from_missing_iff NaN c t) by (try (left; reflexivity); assumption).
  split; [intros [_ H]; exact H | intros H; split; [reflexivity | exact H]].
Qed.

Lemma return_missing_iff_witness :
  nth 2 (pd.pct_change_col [NaN; Fin 100; NaN; Fin 110]) NaN = NaN
  <-> forall s : nat, (s < 2)%nat -> nth s [NaN; Fin 100; NaN; Fin 110] NaN = NaN.
Proof.
  apply (return_missing_iff [NaN; Fin 100; NaN; Fin 110] 2).
  - repeat (apply Forall_cons || apply Forall_nil);
      first [left; reflexivity | right; eexists; split; [| reflexivity]; lra].
  - simpl. lia.
Defined.

(** ** Exactly two rows of prices *)

Lemma cov_two_rows (prices : list (list R)) :
  positive_prices 2 prices ->
  Notebook.cov_matrix (Notebook.returns (liftm prices))
  = repeat (repeat NaN (length prices)) (length prices).
Proof.
  intros Hp. rewrite (cov_complete 2) by (lia || exact Hp).
  pose proof (simple_returns_lengths 2 prices Hp) as Hl.
  rewrite Forall_forall in Hl.
  assert (He : forall ri rj,
             In ri (map Math.simple_returns prices) ->
             In rj (map Math.simple_returns prices) ->
             F.div (Fin (Math.co_moment ri rj)) (Fin (INR (2 - 1) - 1)) = NaN).
  { intros ri rj Hi Hj. specialize (Hl ri Hi) as Hli. specialize (Hl rj Hj) as Hlj.
    destruct ri as [| a [| ? ?]]; try discriminate Hli.
    destruct rj as [| b [| ? ?]]; try discriminate Hlj.
    rewrite co_moment_single. simpl. replace (1 - 1) with 0 by ring.
    rewrite eqb_refl. unfold F.inf_times. rewrite (ltb_ge 0 0) by lra.
    reflexivity. }
  set (X := map Math.simple_returns prices) in *.
  transitivity (map (fun _ : list R => map (fun _ : list R => NaN) X) X).
  - apply map_ext_in. intros rj Hj. apply map_ext_in. intros ri Hi.
    apply He; assumption.
  - unfold X. rewrite !map_const_repeat, !length_map. reflexivity.
Qed.

(** X18. With exactly two rows of positive prices there is one return per
    ticker: the run completes, the portfolio mean return is a number, but
    every covariance is NaN (one observation, divisor 0) and so is the VaR. *)
Theorem two_rows_mean_without_var (ndtri : float64 -> float64)
  (prices : list (list R)) (w : list R) (V : R) (confidence : float64) :
  positive_prices 2 prices -> length w = length prices ->
  exists ws : Notebook.workspace,
    Notebook.run ndtri (liftv w) (Fin V) confidence (liftm prices) = Ok ws /\
    Notebook.ws_port_mean ws
      = Fin (Math.dot w (map Math.arithmetic_mean (map Math.simple_returns prices))) /\
    Notebook.ws_cov_matrix ws = repeat (repeat NaN (length prices)) (length prices) /\
    Notebook.ws_value_at_risk ws = NaN.
Proof.
  intros Hp Hw.
  assert (Hlw : length (liftv w) = length (liftm prices))
    by (unfold liftv, liftm; rewrite !length_map; exact Hw).
  destruct (run_ok ndtri (liftv w) (Fin V) confidence (liftm prices) Hlw)
    as (ws & Hrun & _ & _ & _ & Hcov & Hsd & _ & Hisd & Hpp & Hvar & _).
  destruct (run_inv _ _ _ _ _ _ Hrun) as [Hpm _].
  rewrite (mean_complete 2) in Hpm by (lia || exact Hp).
  rewrite port_mean_Fin in Hpm by (rewrite !length_map; symmetry; exact Hw).
  injection Hpm as Hpm.
  rewrite (cov_two_rows prices Hp) in Hcov, Hsd.
  exists ws. split; [exact Hrun | split; [symmetry; exact Hpm | split; [exact Hcov |]]].
  rewrite Hvar, Hpp. unfold Notebook.percent_point.
  rewrite ppf_bad_scale; [apply sub_NaN |].
  rewrite Hisd, Hsd. apply stdev_short.
  unfold liftv. rewrite length_map. exact Hw.
Qed.

Lemma two_rows_mean_without_var_witness :
  exists ws : Notebook.workspace,
    Notebook.run logit (liftv example_weights) (Fin 1000) (Fin (5 / 100))
      (liftm [[100; 110]; [50; 55]]) = Ok ws /\
    Notebook.ws_port_mean ws
      = Fin (Math.dot example_weights
               (map Math.arithmetic_mean
                  (map Math.simple_returns [[100; 110]; [50; 55]]))) /\
    Notebook.ws_cov_matrix ws
      = repeat (repeat NaN (length [[100; 110]; [50; 55]]))
               (length [[100; 110]; [50; 55]]) /\
    Notebook.ws_value_at_risk ws = NaN.
Proof.
  apply (two_rows_mean_without_var logit [[100; 110]; [50; 55]] example_weights
           1000 (Fin (5 / 100))).
  - unfold positive_prices. repeat constructor; lra.
  - reflexivity.
Defined.

(** ** One ticker, end to end *)

(** X19. With a single ticker of weight 1, at least 3 rows and positive
    prices, the run reports the arithmetic mean of the ticker's returns as
    the portfolio mean and their sample standard deviation as the portfolio
    standard deviation. *)
Theorem single_ticker_run (ndtri : float64 -> float64) (T : nat)
  (p : list R) (V : R) (confidence : float64) :
  (3 <= T)%nat -> positive_prices T [p] ->
  let r := Math.simple_returns p in
  exists ws : Notebook.workspace,
    Notebook.run ndtri [Fin 1] (Fin V) confidence [liftv p] = Ok ws /\
    Notebook.ws_port_mean ws = Fin (Math.arithmetic_mean r) /\
    Notebook.ws_port_stdev ws = Fin (sqrt (Math.sample_covariance r r)) /\
    0 <= Math.sample_covariance r r.
Proof.
  intros HT Hp r.
  destruct (run_complete ndtri T [p] [1] V confidence HT Hp eq_refl)
    as (Hq & ws & Hrun & Hpm & _ & Hsd & _).
  assert (Hm : Math.dot [1] (map Math.arithmetic_mean (map Math.simple_returns [p]))
               = Math.arithmetic_mean r)
    by (unfold Math.dot; simpl; fold r; ring).
  assert (Hv : Math.quadratic_form [1]
                 (covariance_matrix (map Math.simple_returns [p]))
               = Math.sample_covariance r r)
    by (unfold Math.quadratic_form, covariance_matrix, Math.entry; simpl;
        fold r; ring).
  rewrite Hm in Hpm. rewrite Hv in Hsd, Hq.
  exists ws. repeat split; assumption.
Qed.

Lemma single_ticker_run_witness :
  let r := Math.simple_returns [100; 110; 99] in
  exists ws : Notebook.workspace,
    Notebook.run logit [Fin 1] (Fin 1000) (Fin (5 / 100)) [liftv [100; 110; 99]]
      = Ok ws /\
    Notebook.ws_port_mean ws = Fin (Math.arithmetic_mean r) /\
    Notebook.ws_port_stdev ws = Fin (sqrt (Math.sample_covariance r r)) /\
    0 <= Math.sample_covariance r r.
Proof.
  apply (single_ticker_run logit 3 [100; 110; 99] 1000 (Fin (5 / 100))).
  - lia.
  - unfold positive_prices. repeat constructor; lra.
Defined.
